(** * opencode-client: a shallow embedding of the session and message client

    The development follows the three Python modules of the package:
    [session.py] (dataclasses of sessions, message parts and messages),
    [files.py] (results of the file-inspection endpoints) and [client.py]
    (the [OpenCodeClient] class).

    The values the client builds are embedded with the types of their
    annotations; the dataclasses decoded from an answer of the server hold
    JSON values, since their constructors check no types.  The
    operating system, the [mimetypes] table and the HTTP server are external:
    the first two are collected in an environment record [Env], the server
    answers through the continuation of an [Await] node (see [Run]). *)

From Stdlib Require Import String List ZArith Bool.
Import ListNotations.
Local Open Scope string_scope.
Local Open Scope list_scope.
Set Warnings "-register-all".

(* ------------------------------------------------------------------ *)
(** ** Exceptions and results *)

(** The exception classes that can leave the code under study.
    [UnicodeDecodeError] and [JSONDecodeError] are subclasses of
    [ValueError] in Python; [OSError] stands for the family raised by
    [open] (PermissionError, ...); [TransportError] for a failure of the
    HTTP transport (connection refused, timeout). *)
Inductive exn : Type :=
| ValueError (msg : string)
| UnicodeDecodeError (msg : string)
| JSONDecodeError (msg : string)
| TypeError (msg : string)
| OSError (msg : string)
| HTTPStatusError (status : Z)
| TransportError (msg : string).

(** [isinstance(e, ValueError)], the test made by [except ValueError]. *)
Definition is_ValueError (e : exn) : bool :=
  match e with
  | ValueError _ | UnicodeDecodeError _ | JSONDecodeError _ => true
  | _ => false
  end.

(** [str(e)], as interpolated by an f-string. *)
Definition exn_str (e : exn) : string :=
  match e with
  | ValueError m | UnicodeDecodeError m | JSONDecodeError m
  | TypeError m | OSError m | TransportError m => m
  | HTTPStatusError _ => "HTTP status error"
  end.

(** Result of a Python expression: a value or a raised exception. *)
Inductive outcome (A : Type) : Type :=
| Return (a : A)
| Raise (e : exn).
Arguments Return {A} a.
Arguments Raise {A} e.

Definition is_Return {A} (r : outcome A) : bool :=
  match r with Return _ => true | Raise _ => false end.

(* ------------------------------------------------------------------ *)
(** ** Python truthiness of the values the client tests *)

(** [bool(s)] for [s : str]. *)
Definition str_truthy (s : string) : bool :=
  match s with EmptyString => false | String _ _ => true end.

(** [bool(s)] for [s : Optional[str]]. *)
Definition truthy (s : option string) : bool :=
  match s with Some s => str_truthy s | None => false end.

(** [a or b] on [Optional[str]]. *)
Definition py_or (a b : option string) : option string :=
  if truthy a then a else b.

(** The string behind an [Optional[str]] that has passed a truthiness
    guard. *)
Definition the_str (s : option string) : string :=
  match s with Some s => s | None => "" end.

(** [s.startswith(prefixes)] with a tuple of prefixes. *)
Definition startswith_any (s : string) (prefixes : list string) : bool :=
  existsb (fun p => String.prefix p s) prefixes.

(** [Union[str, List[str]]], discriminated by [isinstance(_, list)]. *)
Inductive str_or_list : Type :=
| Str (s : string)
| Strs (l : list string).

(** [bool(x)] for [x : Optional[Union[str, List[str]]]]. *)
Definition input_truthy (x : option str_or_list) : bool :=
  match x with
  | None => false
  | Some (Str s) => str_truthy s
  | Some (Strs l) => match l with [] => false | _ :: _ => true end
  end.

(* ------------------------------------------------------------------ *)
(** ** JSON values, as produced by [res.json()] and consumed by [json=] *)

Inductive json : Type :=
| JNull
| JBool (b : bool)
| JInt (n : Z)
| JFloat (literal : string)
| JStr (s : string)
| JArr (items : list json)
| JObj (members : list (string * json)).

Definition json_of_opt_str (s : option string) : json :=
  match s with Some s => JStr s | None => JNull end.

(** Lookup of a keyword argument in the members of a JSON object. *)
Fixpoint kw_lookup (k : string) (kw : list (string * json)) : option json :=
  match kw with
  | [] => None
  | (k', v) :: kw' => if String.eqb k k' then Some v else kw_lookup k kw'
  end.

(** Every keyword passed is a field of the dataclass. *)
Definition kw_known (fields : list string) (kw : list (string * json)) : bool :=
  forallb (fun kv => existsb (String.eqb (fst kv)) fields) kw.

(* ------------------------------------------------------------------ *)
(** ** The environment: file system and MIME table

    [Path_resolve f] is [str(Path(f).resolve())]; [os_path_exists] and
    [os_path_isfile] are the functions of [os.path]; [mimetypes_guess_type]
    is [mimetypes.guess_type], which returns the pair (type, encoding);
    [open_read f] is the result of [open(f, "r")] followed by [read()]:
    the decoded text, or the exception raised ([OSError] when the file
    cannot be opened, [UnicodeDecodeError] when its bytes are not text). *)
Record Env : Type := mkEnv {
  Path_resolve : string -> string;
  os_path_exists : string -> bool;
  os_path_isfile : string -> bool;
  mimetypes_guess_type : string -> option string * option string;
  open_read : string -> outcome string
}.

(* ------------------------------------------------------------------ *)
(** ** session.py *)

Module Session.
(** The generated constructor checks no types: a field decoded from an
    answer of the server holds whatever JSON value the answer carries
    ([time] is a [TypedDict], a plain dictionary at run time).  [id] alone
    keeps its annotated type [str]: it is the one field the client itself
    uses, and it uses it as a string (truthiness, f-string, argument of
    [delete_session]). *)
Record t : Type := mk {
  id : string;
  title : json;
  version : json;
  projectID : json;
  directory : json;
  time : json;
  parentID : json
}.

Definition fields : list string :=
  ["id"; "title"; "version"; "projectID"; "directory"; "time"; "parentID"].

(** The fields without default value. *)
Definition required : list string :=
  ["id"; "title"; "version"; "projectID"; "directory"; "time"].

(** The constructor call on the unpacked payload.  The generated
    [__init__] rejects a payload that is not a mapping, an unknown keyword
    and a missing required field with [TypeError]; [parentID] defaults to
    the empty string.  An answer whose [id] is not a string, which Python
    would store unchecked, lies outside the typed model and is reported as
    a [TypeError] as well. *)
Definition from_json (payload : json) : outcome t :=
  match payload with
  | JObj kw =>
      if negb (kw_known fields kw)
      then Raise (TypeError "Session.__init__() got an unexpected keyword argument")
      else
        match kw_lookup "id" kw, kw_lookup "title" kw, kw_lookup "version" kw,
              kw_lookup "projectID" kw, kw_lookup "directory" kw,
              kw_lookup "time" kw with
        | Some i, Some ti, Some v, Some p, Some d, Some tm =>
            match i with
            | JStr i =>
                Return (mk i ti v p d tm
                           (match kw_lookup "parentID" kw with
                            | Some pa => pa
                            | None => JStr ""
                            end))
            | _ => Raise (TypeError "Session: field id is not a string")
            end
        | _, _, _, _, _, _ =>
            Raise (TypeError "Session.__init__() missing required argument")
        end
  | _ => Raise (TypeError "argument after ** must be a mapping")
  end.
End Session.

Module TextPart.
Record t : Type := mk {
  text : string;
  type : string
}.

Definition from_string (s : string) : t := mk s "text".

Definition asdict (p : t) : json :=
  JObj [("text", JStr (text p)); ("type", JStr (type p))].
End TextPart.

Module FileSourceText.
Record t : Type := mk {
  end_ : Z;
  start : Z;
  value : string
}.

(** [open(file, "r")], [f.read()], then the range of the whole text. *)
Definition from_file (env : Env) (file : string) : outcome t :=
  match open_read env file with
  | Return content => Return (mk (Z.of_nat (String.length content)) 0 content)
  | Raise e => Raise e
  end.

Definition asdict (s : t) : json :=
  JObj [("end", JInt (end_ s)); ("start", JInt (start s)); ("value", JStr (value s))].
End FileSourceText.

Module FileSource.
Record t : Type := mk {
  path : string;
  text : FileSourceText.t;
  type : string
}.

Definition from_file (env : Env) (file : string) : outcome t :=
  match FileSourceText.from_file env file with
  | Return txt => Return (mk file txt "file")
  | Raise e => Raise e
  end.

Definition asdict (s : t) : json :=
  JObj [("path", JStr (path s)); ("text", FileSourceText.asdict (text s));
        ("type", JStr (type s))].
End FileSource.

(** [mime_type, _ = mimetypes.guess_type(file)]. *)
Definition _raw_guess_mimetypes (env : Env) (file : string) : option string :=
  fst (mimetypes_guess_type env file).

Module FilePart.
(** [source] is [FileSource | dict]; [None] is the default empty
    dictionary, the only dictionary that the constructors of the class
    ([from_file], [from_url]) leave in the field. *)
Record t : Type := mk {
  mime : string;
  url : string;
  type : string;
  id : string;
  filename : string;
  source : option FileSource.t
}.

Definition msg_no_mimetype_path : string :=
  "It was not possible to guess the mimetype for your file from the provided path".
Definition msg_unsupported (mimetype : string) : string :=
  "Unsopported type: " ++ mimetype.
Definition msg_not_exist : string := "The provided file does not exist".
Definition msg_no_mimetype_url : string :=
  "It was not possible to guess the mimetype for your file from the provided URL".

Definition from_file (env : Env) (file : string) : outcome t :=
  let abs_path := Path_resolve env file in
  if os_path_exists env abs_path && os_path_isfile env abs_path then
    let mimetype := _raw_guess_mimetypes env abs_path in
    if negb (truthy mimetype) then Raise (ValueError msg_no_mimetype_path)
    else if negb (String.prefix "text/" (the_str mimetype))
    then Raise (ValueError (msg_unsupported (the_str mimetype)))
    else
      match FileSource.from_file env abs_path with
      | Return src =>
          Return (mk (the_str mimetype) ("file://" ++ abs_path) "file" "" file (Some src))
      | Raise e => Raise e
      end
  else Raise (ValueError msg_not_exist).

Definition from_url (env : Env) (url : string) : outcome t :=
  let mimetype := _raw_guess_mimetypes env url in
  if negb (truthy mimetype) then Raise (ValueError msg_no_mimetype_url)
  else Return (mk (the_str mimetype) url "file" "" "" None).

Definition asdict (p : t) : json :=
  JObj [("mime", JStr (mime p)); ("url", JStr (url p)); ("type", JStr (type p));
        ("id", JStr (id p)); ("filename", JStr (filename p));
        ("source", match source p with
                   | Some s => FileSource.asdict s
                   | None => JObj []
                   end)].
End FilePart.

(** [Union[TextPart, FilePart]]. *)
Inductive Part : Type :=
| PText (p : TextPart.t)
| PFile (p : FilePart.t).

Definition Part_asdict (p : Part) : json :=
  match p with
  | PText t => TextPart.asdict t
  | PFile f => FilePart.asdict f
  end.

Definition is_text_part (p : Part) : bool :=
  match p with PText _ => true | PFile _ => false end.

Definition is_file_part (p : Part) : bool :=
  match p with PText _ => false | PFile _ => true end.

Module UserMessage.
(** [system] is annotated [str] but receives the [Optional[str]]
    argument of [send_message] unchanged. *)
Record t : Type := mk {
  modelID : string;
  providerID : string;
  parts : list Part;
  messageID : string;
  mode : string;
  system : option string;
  tools : list (string * bool)
}.

(** [UserMessage(modelID=.., providerID=.., parts=.., system=..)]. *)
Definition make (modelID providerID : string) (parts : list Part)
           (system : option string) : t :=
  mk modelID providerID parts "" "build" system [].

Definition asdict (m : t) : json :=
  JObj [("modelID", JStr (modelID m)); ("providerID", JStr (providerID m));
        ("parts", JArr (map Part_asdict (parts m)));
        ("messageID", JStr (messageID m)); ("mode", JStr (mode m));
        ("system", json_of_opt_str (system m));
        ("tools", JObj (map (fun kv => (fst kv, JBool (snd kv))) (tools m)))].
End UserMessage.

Module AssistantMessage.
(** [info] is a [TypedDict] and [parts] a list of them: dictionaries at
    run time.  The constructor checks no types, so the three fields hold
    the JSON values of the answer. *)
Record t : Type := mk {
  info : json;
  parts : json;
  bloked : json
}.

Definition fields : list string := ["info"; "parts"; "bloked"].

(** The constructor call on the unpacked payload; all three fields are
    required. *)
Definition from_json (payload : json) : outcome t :=
  match payload with
  | JObj kw =>
      if negb (kw_known fields kw)
      then Raise (TypeError
                    "AssistantMessage.__init__() got an unexpected keyword argument")
      else
        match kw_lookup "info" kw, kw_lookup "parts" kw, kw_lookup "bloked" kw with
        | Some i, Some ps, Some b => Return (mk i ps b)
        | _, _, _ =>
            Raise (TypeError "AssistantMessage.__init__() missing required argument")
        end
  | _ => Raise (TypeError "argument after ** must be a mapping")
  end.
End AssistantMessage.

(** Iteration over a decoded JSON value, as a [for] loop sees it: the
    items of a list, the keys of a dictionary, the characters of a string;
    anything else is not iterable. *)
Fixpoint chars_of (s : string) : list json :=
  match s with
  | EmptyString => []
  | String c s' => JStr (String c EmptyString) :: chars_of s'
  end.

Definition py_iter (payload : json) : outcome (list json) :=
  match payload with
  | JArr items => Return items
  | JObj members => Return (map (fun kv => JStr (fst kv)) members)
  | JStr s => Return (chars_of s)
  | _ => Raise (TypeError "object is not iterable")
  end.

(** [for x in items: acc.append(decode(x))]; the first failing element
    aborts the loop. *)
Fixpoint decode_each {A} (decode : json -> outcome A) (items : list json)
         (acc : list A) : outcome (list A) :=
  match items with
  | [] => Return acc
  | x :: items' =>
      match decode x with
      | Return a => decode_each decode items' (acc ++ [a])
      | Raise e => Raise e
      end
  end.

(* ------------------------------------------------------------------ *)
(** ** files.py *)

Inductive FileOperation : Type :=
| read
| get_status
| search_by_text
| search_by_name.

Definition FileOperation_str (op : FileOperation) : string :=
  match op with
  | read => "read"
  | get_status => "get_status"
  | search_by_text => "search_by_text"
  | search_by_name => "search_by_name"
  end.

Definition is_get_status (op : FileOperation) : bool :=
  match op with get_status => true | _ => false end.

Module File.
(** As for the other dataclasses decoded from an answer, the fields hold
    the JSON values received: the constructor checks no types. *)
Record t : Type := mk {
  added : json;
  path : json;
  removed : json;
  status : json
}.

Definition fields : list string := ["added"; "path"; "removed"; "status"].

Definition from_json (payload : json) : outcome t :=
  match payload with
  | JObj kw =>
      if negb (kw_known fields kw)
      then Raise (TypeError "File.__init__() got an unexpected keyword argument")
      else
        match kw_lookup "added" kw, kw_lookup "path" kw,
              kw_lookup "removed" kw, kw_lookup "status" kw with
        | Some a, Some p, Some r, Some s => Return (mk a p r s)
        | _, _, _, _ => Raise (TypeError "File.__init__() missing required argument")
        end
  | _ => Raise (TypeError "argument after ** must be a mapping")
  end.
End File.

Module Match.
Record t : Type := mk {
  path : json;
  lines : json;
  line_number : json;
  absolute_offset : json;
  submatches : json
}.

Definition fields : list string :=
  ["path"; "lines"; "line_number"; "absolute_offset"; "submatches"].

Definition from_json (payload : json) : outcome t :=
  match payload with
  | JObj kw =>
      if negb (kw_known fields kw)
      then Raise (TypeError "Match.__init__() got an unexpected keyword argument")
      else
        match kw_lookup "path" kw, kw_lookup "lines" kw,
              kw_lookup "line_number" kw, kw_lookup "absolute_offset" kw,
              kw_lookup "submatches" kw with
        | Some p, Some l, Some n, Some o, Some s => Return (mk p l n o s)
        | _, _, _, _, _ => Raise (TypeError "Match.__init__() missing required argument")
        end
  | _ => Raise (TypeError "argument after ** must be a mapping")
  end.
End Match.

Module ReadFile.
Record t : Type := mk {
  type : json;
  content : json
}.

Definition fields : list string := ["type"; "content"].

Definition from_json (payload : json) : outcome t :=
  match payload with
  | JObj kw =>
      if negb (kw_known fields kw)
      then Raise (TypeError "ReadFile.__init__() got an unexpected keyword argument")
      else
        match kw_lookup "type" kw, kw_lookup "content" kw with
        | Some ty, Some c => Return (mk ty c)
        | _, _ => Raise (TypeError "ReadFile.__init__() missing required argument")
        end
  | _ => Raise (TypeError "argument after ** must be a mapping")
  end.
End ReadFile.

(** [Union[List[File], List[Match], List[str], ReadFile]]; the name search
    returns the decoded body as it is. *)
Inductive file_result : Type :=
| Files (l : list File.t)
| Matches (l : list Match.t)
| Names (payload : json)
| Content (r : ReadFile.t).

(* ------------------------------------------------------------------ *)
(** ** client.py: state of the client and of the process *)

(** An entry of [chat_history]. *)
Inductive message : Type :=
| User (m : UserMessage.t)
| Assistant (m : AssistantMessage.t).

(** The instance attributes, exactly those bound by [__init__]. *)
Record OpenCodeClient : Type := mkClient {
  base_url : string;
  model_provider : string;
  model : string;
  timeout : Z;
  _current_session : option Session.t;
  chat_history : list message
}.

Definition __init__ (base_url model_provider model : string) (timeout : option Z)
  : OpenCodeClient :=
  mkClient base_url model_provider model
           (match timeout with Some t => t | None => 600%Z end) None [].

(** Names of the attributes an instance carries ([vars(client)]); no
    method of the class binds another one.  Below, [hasattr] looks a name
    up in this instance dictionary only: the methods, which Python finds as
    well, are the names defined in the class body. *)
Definition instance_attributes : list string :=
  ["base_url"; "model_provider"; "model"; "timeout"; "_current_session";
   "chat_history"].

Definition hasattr (_ : OpenCodeClient) (name : string) : bool :=
  existsb (String.eqb name) instance_attributes.

(** What an operation can change: the client object and the warnings
    issued so far through [warnings.warn]. *)
Record World : Type := mkWorld {
  self : OpenCodeClient;
  warned : list string
}.

Inductive http_method : Type := GET | POST | PATCH | DELETE.

(** A request handed to the [httpx.AsyncClient] of [_get_client], whose
    base address and timeout are those of the client. *)
Record request : Type := mkRequest {
  method : http_method;
  url : string;
  json_body : option json
}.

(** [body = None] is a body that is not JSON. *)
Record response : Type := mkResponse {
  status_code : Z;
  body : option json
}.

(** A run of an asynchronous operation: it ends with a value or an
    exception, or it is suspended on an HTTP request, in the world it has
    built so far, until the transport answers with a response or raises. *)
Inductive Run (A : Type) : Type :=
| Done (r : outcome A) (w : World)
| Await (req : request) (w : World) (k : outcome response -> Run A).
Arguments Done {A} r w.
Arguments Await {A} req w k.

Definition M (A : Type) : Type := World -> Run A.

Definition ret {A} (a : A) : M A := fun w => Done (Return a) w.
Definition raise {A} (e : exn) : M A := fun w => Done (Raise e) w.

Fixpoint bind_run {A B} (r : Run A) (f : A -> M B) : Run B :=
  match r with
  | Done (Return a) w => f a w
  | Done (Raise e) w => Done (Raise e) w
  | Await req w k => Await req w (fun ans => bind_run (k ans) f)
  end.

Definition bind {A B} (m : M A) (f : A -> M B) : M B :=
  fun w => bind_run (m w) f.

Declare Scope client_scope.
Delimit Scope client_scope with client.
Notation "x <- m ;; k" := (bind m (fun x => k))
  (at level 100, m at next level, right associativity) : client_scope.
Notation "m ;; k" := (bind m (fun _ => k))
  (at level 100, right associativity) : client_scope.
Local Open Scope client_scope.

Definition lift {A} (r : outcome A) : M A := fun w => Done r w.

Definition get_self : M OpenCodeClient := fun w => Done (Return (self w)) w.

Definition set_current_session (s : option Session.t) : M unit :=
  fun w =>
    let c := self w in
    Done (Return tt)
         (mkWorld (mkClient (base_url c) (model_provider c) (model c) (timeout c)
                            s (chat_history c))
                  (warned w)).

(** [self.chat_history.append(m)]. *)
Definition chat_history_append (m : message) : M unit :=
  fun w =>
    let c := self w in
    Done (Return tt)
         (mkWorld (mkClient (base_url c) (model_provider c) (model c) (timeout c)
                            (_current_session c) (chat_history c ++ [m]))
                  (warned w)).

(** The warnings and the result of a block that only warns or raises. *)
Definition emit {A} (b : list string * outcome A) : M A :=
  fun w => Done (snd b) (mkWorld (self w) (warned w ++ fst b)).

(** One awaited call of the HTTP client. *)
Definition http (req : request) : M response :=
  fun w => Await req w (fun ans => Done ans w).

Definition client_get (url : string) : M response := http (mkRequest GET url None).
Definition client_post (url : string) (js : option json) : M response :=
  http (mkRequest POST url js).
Definition client_patch (url : string) (js : option json) : M response :=
  http (mkRequest PATCH url js).
Definition client_delete (url : string) : M response := http (mkRequest DELETE url None).

Definition is_success (res : response) : bool :=
  (200 <=? status_code res)%Z && (status_code res <=? 299)%Z.

Definition raise_for_status (res : response) : M unit :=
  if is_success res then ret tt else raise (HTTPStatusError (status_code res)).

Definition res_json (res : response) : M json :=
  match body res with
  | Some j => ret j
  | None => raise (JSONDecodeError "Expecting value")
  end.

(* ------------------------------------------------------------------ *)
(** ** client.py: the operations of [OpenCodeClient] *)

(** [self._current_session.id if self._current_session else None]. *)
Definition current_session_id (c : OpenCodeClient) : option string :=
  match _current_session c with
  | Some s => Some (Session.id s)
  | None => None
  end.

Definition msg_no_session : string :=
  "No session ID provided and no session ID available from current session".

Definition create_current_session (title parent_id : option string) : M Session.t :=
  res <- client_post "/session"
           (Some (JObj [("parentID", JStr (the_str (py_or parent_id (Some ""))));
                        ("title", json_of_opt_str title)]));;
  raise_for_status res;;
  payload <- res_json res;;
  session <- lift (Session.from_json payload);;
  set_current_session (Some session);;
  ret session.

Definition list_sessions : M (list Session.t) :=
  res <- client_get "/session";;
  raise_for_status res;;
  payload <- res_json res;;
  items <- lift (py_iter payload);;
  sessions <- lift (decode_each Session.from_json items []);;
  ret sessions.

Definition _delete_session (session_id : string) : M unit :=
  res <- client_delete ("/session/" ++ session_id);;
  raise_for_status res.

Definition _update_session (session_id title : string) : M unit :=
  res <- client_patch ("/session/" ++ session_id) (Some (JObj [("title", JStr title)]));;
  raise_for_status res.

Definition _abort_session (session_id : string) : M unit :=
  res <- client_post ("/session/" ++ session_id ++ "/abort") None;;
  raise_for_status res.

Definition _send_message_to_session (session_id : string) (message : UserMessage.t)
  : M AssistantMessage.t :=
  res <- client_post ("/session/" ++ session_id ++ "/message")
           (Some (UserMessage.asdict message));;
  raise_for_status res;;
  payload <- res_json res;;
  lift (AssistantMessage.from_json payload).

Definition msg_requires_query (operation : FileOperation) : string :=
  "Operation " ++ FileOperation_str operation ++ " requires a query value.".

Definition _perform_file_operation (operation : FileOperation) (query : option string)
  : M file_result :=
  if negb (truthy query) && negb (is_get_status operation)
  then raise (ValueError (msg_requires_query operation))
  else
    match operation with
    | get_status =>
        res <- client_get "/file/status";;
        raise_for_status res;;
        payload <- res_json res;;
        items <- lift (py_iter payload);;
        files <- lift (decode_each File.from_json items []);;
        ret (Files files)
    | read =>
        res <- client_get ("/file?path=" ++ the_str query);;
        raise_for_status res;;
        payload <- res_json res;;
        r <- lift (ReadFile.from_json payload);;
        ret (Content r)
    | search_by_name =>
        res <- client_get ("/find/file?query=" ++ the_str query);;
        raise_for_status res;;
        payload <- res_json res;;
        ret (Names payload)
    | search_by_text =>
        res <- client_get ("/find?pattern=" ++ the_str query);;
        raise_for_status res;;
        payload <- res_json res;;
        items <- lift (py_iter payload);;
        matches <- lift (decode_each Match.from_json items []);;
        ret (Matches matches)
    end.

Definition delete_session (session_id : option string) : M unit :=
  c <- get_self;;
  let session_id := py_or session_id (current_session_id c) in
  if negb (truthy session_id) then raise (ValueError msg_no_session)
  else _delete_session (the_str session_id).

Definition update_session (session_id title : option string) : M unit :=
  if negb (truthy title) then ret tt
  else
    c <- get_self;;
    let session_id := py_or session_id (current_session_id c) in
    if negb (truthy session_id) then raise (ValueError msg_no_session)
    else _update_session (the_str session_id) (the_str title).

Definition abort_session (session_id : option string) : M unit :=
  c <- get_self;;
  let session_id := py_or session_id (current_session_id c) in
  if negb (truthy session_id) then raise (ValueError msg_no_session)
  else _abort_session (the_str session_id).

Definition remote_prefixes : list string :=
  ["http://"; "https://"; "ftp://"; "file://"].

Definition is_remote (f : string) : bool := startswith_any f remote_prefixes.

Definition warning_text (f : string) (e : exn) : string :=
  "It was not possible to include file " ++ f ++ " as FilePart because of: "
  ++ exn_str e.

(** [for t in text: parts.append(TextPart.from_string(t))]. *)
Fixpoint append_texts (text : list string) (parts : list Part) : list Part :=
  match text with
  | [] => parts
  | t :: text' => append_texts text' (parts ++ [PText (TextPart.from_string t)])
  end.

(** The treatment of one file input, the same in the loop over a list and
    for a single string: a remote input goes through [FilePart.from_url]
    outside any handler, a local one through [FilePart.from_file] under
    [except ValueError].  The first component lists the warnings issued. *)
Definition attach_file (env : Env) (f : string) (parts : list Part)
  : list string * outcome (list Part) :=
  if is_remote f then
    match FilePart.from_url env f with
    | Return p => ([], Return (parts ++ [PFile p]))
    | Raise e => ([], Raise e)
    end
  else
    match FilePart.from_file env f with
    | Return p => ([], Return (parts ++ [PFile p]))
    | Raise e =>
        if is_ValueError e then ([warning_text f e], Return parts)
        else ([], Raise e)
    end.

(** [for f in file: ...]. *)
Fixpoint attach_files (env : Env) (file : list string) (parts : list Part)
  : list string * outcome (list Part) :=
  match file with
  | [] => ([], Return parts)
  | f :: file' =>
      match attach_file env f parts with
      | (ws, Return parts') =>
          let (ws', r) := attach_files env file' parts' in (ws ++ ws', r)
      | (ws, Raise e) => (ws, Raise e)
      end
  end.

(** Lines 117-141 of [send_message]: the parts of the message. *)
Definition compose_parts (env : Env) (text : str_or_list) (file : option str_or_list)
  : list string * outcome (list Part) :=
  let parts :=
    match text with
    | Strs l => append_texts l []
    | Str s => [PText (TextPart.from_string s)]
    end in
  if input_truthy file then
    match file with
    | Some (Strs l) => attach_files env l parts
    | Some (Str f) => attach_file env f parts
    | None => ([], Return parts)
    end
  else ([], Return parts).

Definition send_message (env : Env) (text : str_or_list) (file : option str_or_list)
           (system_message session_id : option string) : M AssistantMessage.t :=
  c <- get_self;;
  let session_id := py_or session_id (current_session_id c) in
  if negb (truthy session_id) then raise (ValueError msg_no_session)
  else
    parts <- emit (compose_parts env text file);;
    let user_message :=
      UserMessage.make (model c) (model_provider c) parts system_message in
    chat_history_append (User user_message);;
    assistant_message <- _send_message_to_session (the_str session_id) user_message;;
    chat_history_append (Assistant assistant_message);;
    ret assistant_message.

Definition search_file_by_name (name : string) : M file_result :=
  _perform_file_operation search_by_name (Some name).

Definition search_file_by_text (pattern : string) : M file_result :=
  _perform_file_operation search_by_text (Some pattern).

Definition read_file (path : string) : M file_result :=
  _perform_file_operation read (Some path).

Definition get_files_status : M file_result :=
  _perform_file_operation get_status None.

(* ------------------------------------------------------------------ *)
(** ** tests/test_client.py: the cleanup helper *)

(** [for session in sessions: await delete_session(session.id)]. *)
Fixpoint delete_each (sessions : list Session.t) : M unit :=
  match sessions with
  | [] => ret tt
  | session :: sessions' =>
      delete_session (Some (Session.id session));;
      delete_each sessions'
  end.

Definition apply_cleanup : M unit :=
  sessions <- list_sessions;;
  delete_each sessions.

(* ------------------------------------------------------------------ *)
(** ** Running an operation against a server *)

(** The transport: what the HTTP client yields for a request. *)
Definition transport : Type := request -> outcome response.

(** The result, the final world and the requests made, in order. *)
Fixpoint run_with {A} (srv : transport) (r : Run A)
  : outcome A * World * list request :=
  match r with
  | Done res w => (res, w, [])
  | Await req w k =>
      let '(res, w', reqs) := run_with srv (k (srv req)) in
      (res, w', req :: reqs)
  end.

Definition world_of {A} (x : outcome A * World * list request) : World :=
  snd (fst x).

(* ------------------------------------------------------------------ *)
(** ** A sample process: a small file system, a MIME table and a client *)

Module Sample.

Definition ends_with (suffix s : string) : bool :=
  let n := String.length suffix in
  let m := String.length s in
  (n <=? m)%nat && String.eqb (substring (m - n) n s) suffix.

(** A fragment of the table of [mimetypes]. *)
Definition guess_type (f : string) : option string * option string :=
  if ends_with ".txt" f then (Some "text/plain", None)
  else if ends_with ".md" f then (Some "text/markdown", None)
  else if ends_with ".png" f then (Some "image/png", None)
  else (None, None).

(** The working directory is [/work]. *)
Definition resolve (f : string) : string :=
  if String.prefix "/" f then f else "/work/" ++ f.

Definition regular_files : list string :=
  ["/work/notes.txt"; "/work/logo.png"; "/work/secret.txt"; "/work/LICENSE";
   "/work/latin1.txt"].

Definition isfile (f : string) : bool := existsb (String.eqb f) regular_files.

Definition exists_ (f : string) : bool := isfile f || String.eqb f "/work".

(** [secret.txt] is not readable by the user of the process; [latin1.txt]
    holds bytes that are not valid in the default encoding. *)
Definition read (f : string) : outcome string :=
  if String.eqb f "/work/notes.txt" then Return "hello"
  else if String.eqb f "/work/LICENSE" then Return "MIT"
  else if String.eqb f "/work/secret.txt"
  then Raise (OSError "[Errno 13] Permission denied: '/work/secret.txt'")
  else if isfile f
  then Raise (UnicodeDecodeError "'utf-8' codec can't decode byte")
  else Raise (OSError "[Errno 2] No such file or directory").

Definition env : Env := mkEnv resolve exists_ isfile guess_type read.

Definition fresh : OpenCodeClient :=
  __init__ "http://127.0.0.1:4596" "openai" "gpt-5" None.

Definition session1 : Session.t :=
  Session.mk "ses_1" (JStr "test") (JStr "0.1") (JStr "proj") (JStr "/work")
             (JObj [("created", JInt 1); ("updated", JInt 2)]) (JStr "").

Definition session2 : Session.t :=
  Session.mk "ses_2" (JStr "hello") (JStr "0.1") (JStr "proj") (JStr "/work")
             (JObj [("created", JInt 3); ("updated", JInt 4)]) (JStr "").

Definition session_json (s : Session.t) : json :=
  JObj [("id", JStr (Session.id s)); ("title", Session.title s);
        ("version", Session.version s); ("projectID", Session.projectID s);
        ("directory", Session.directory s); ("time", Session.time s);
        ("parentID", Session.parentID s)].

Definition with_session (s : Session.t) : OpenCodeClient :=
  mkClient (base_url fresh) (model_provider fresh) (model fresh) (timeout fresh)
           (Some s) [].

Definition w0 : World := mkWorld fresh [].
Definition w1 : World := mkWorld (with_session session1) [].

Definition reply : AssistantMessage.t :=
  AssistantMessage.mk (JObj [("id", JStr "msg_1")]) (JArr []) (JBool false).

Definition reply_json : json :=
  JObj [("info", JObj [("id", JStr "msg_1")]); ("parts", JArr []);
        ("bloked", JBool false)].

(** A server with two sessions that answers every message. *)
Definition server : transport :=
  fun req =>
    match method req with
    | GET =>
        if String.eqb (url req) "/session"
        then Return (mkResponse 200
                       (Some (JArr [session_json session1; session_json session2])))
        else Return (mkResponse 200 (Some (JArr [])))
    | POST =>
        if String.eqb (url req) "/session"
        then Return (mkResponse 200 (Some (session_json session2)))
        else Return (mkResponse 200 (Some reply_json))
    | _ => Return (mkResponse 200 None)
    end.

(** A server that cannot be reached. *)
Definition down : transport := fun _ => Raise (TransportError "connection refused").

End Sample.


(* ------------------------------------------------------------------ *)
(** ** Vocabulary of the statements *)

(** The operation raises [e] without suspending on any request and leaves
    the world as [w]: whatever the transport, no request is made. *)
Definition raises_offline {A} (r : Run A) (e : exn) (w : World) : Prop :=
  forall srv : transport, run_with srv r = (Raise e, w, []).

(** The operation returns [a] without any request, in world [w]. *)
Definition returns_offline {A} (r : Run A) (a : A) (w : World) : Prop :=
  forall srv : transport, run_with srv r = (Return a, w, []).

(** The identifier an operation resolves: the explicit one when truthy,
    else that of the current session. *)
Definition resolved_id (session_id : option string) (w : World) : option string :=
  py_or session_id (current_session_id (self w)).

(** The text inputs of a call, in order. *)
Definition texts_of (text : str_or_list) : list string :=
  match text with
  | Str s => [s]
  | Strs l => l
  end.

(** The file inputs of a call, in order; a falsy argument carries none. *)
Definition inputs_of (file : option str_or_list) : list string :=
  if input_truthy file then
    match file with
    | Some (Str f) => [f]
    | Some (Strs l) => l
    | None => []
    end
  else [].

Definition text_parts (texts : list string) : list Part :=
  map (fun t => PText (TextPart.from_string t)) texts.

(** The path of a local input is an existing regular file. *)
Definition regular_file (env : Env) (file : string) : bool :=
  os_path_exists env (Path_resolve env file)
  && os_path_isfile env (Path_resolve env file).

(** The MIME type guessed for the resolved path of a local input. *)
Definition guessed_type (env : Env) (file : string) : option string :=
  _raw_guess_mimetypes env (Path_resolve env file).

(** The source that embeds the whole of [content], read at [path]. *)
Definition whole_text (path content : string) : FileSource.t :=
  FileSource.mk path
    (FileSourceText.mk (Z.of_nat (String.length content)) 0 content) "file".

(** The constructor that a file input selects. *)
Definition build_file (env : Env) (f : string) : outcome FilePart.t :=
  if is_remote f then FilePart.from_url env f else FilePart.from_file env f.

(** A failure that the composer handles: a [ValueError] of a local input. *)
Definition handled (f : string) (e : exn) : bool :=
  negb (is_remote f) && is_ValueError e.

(** The part contributed by one file input: none when construction fails. *)
Definition file_part_of (env : Env) (f : string) : list FilePart.t :=
  match build_file env f with
  | Return p => [p]
  | Raise _ => []
  end.

(** The warning issued for one file input. *)
Definition skip_warning (env : Env) (f : string) : list string :=
  match build_file env f with
  | Raise e => if handled f e then [warning_text f e] else []
  | Return _ => []
  end.

(** The exception with which one file input aborts the composition. *)
Definition aborts (env : Env) (f : string) : option exn :=
  match build_file env f with
  | Raise e => if handled f e then None else Some e
  | Return _ => None
  end.

Definition file_parts (env : Env) (files : list string) : list Part :=
  map PFile (flat_map (file_part_of env) files).

(** The request of [_send_message_to_session]. *)
Definition message_request (session_id : string) (um : UserMessage.t) : request :=
  mkRequest POST ("/session/" ++ session_id ++ "/message")
            (Some (UserMessage.asdict um)).

(** The world in which [send_message] awaits the server: the warnings [ws]
    of the composition are out and the user message is in the history. *)
Definition sent_world (w : World) (ws : list string) (um : UserMessage.t) : World :=
  let c := self w in
  mkWorld (mkClient (base_url c) (model_provider c) (model c) (timeout c)
                    (_current_session c) (chat_history c ++ [User um]))
          (warned w ++ ws).

(** The world after the answer [am] has been recorded. *)
Definition answered_world (w : World) (am : AssistantMessage.t) : World :=
  let c := self w in
  mkWorld (mkClient (base_url c) (model_provider c) (model c) (timeout c)
                    (_current_session c) (chat_history c ++ [Assistant am]))
          (warned w).

(** What [send_message] does with the answer of the transport. *)
Definition finish_send (w : World) (ans : outcome response)
  : Run AssistantMessage.t :=
  match ans with
  | Raise e => Done (Raise e) w
  | Return res =>
      if is_success res then
        match body res with
        | None => Done (Raise (JSONDecodeError "Expecting value")) w
        | Some payload =>
            match AssistantMessage.from_json payload with
            | Return am => Done (Return am) (answered_world w am)
            | Raise e => Done (Raise e) w
            end
        end
      else Done (Raise (HTTPStatusError (status_code res))) w
  end.

(** The world after [create_current_session] has stored [s]. *)
Definition with_current (w : World) (s : Session.t) : World :=
  let c := self w in
  mkWorld (mkClient (base_url c) (model_provider c) (model c) (timeout c)
                    (Some s) (chat_history c))
          (warned w).

(** The result of an operation that only checks the status of the
    answer: [raise_for_status] after the awaited call. *)
Definition status_outcome (ans : outcome response) : outcome unit :=
  match ans with
  | Raise e => Raise e
  | Return res =>
      if is_success res then Return tt
      else Raise (HTTPStatusError (status_code res))
  end.

(** The decoded body of an answer: the status check, then [res.json()]. *)
Definition body_outcome (ans : outcome response) : outcome json :=
  match ans with
  | Raise e => Raise e
  | Return res =>
      if is_success res then
        match body res with
        | Some payload => Return payload
        | None => Raise (JSONDecodeError "Expecting value")
        end
      else Raise (HTTPStatusError (status_code res))
  end.

(** [r] makes at most one request: it ends at once, or it ends as soon as
    its request is answered. *)
Definition one_shot {A} (r : Run A) : Prop :=
  match r with
  | Done _ _ => True
  | Await _ _ k => forall ans, exists res w, k ans = Done res w
  end.

(** [r] runs in the world [w] throughout: it makes at most one request
    and never changes the client or the warnings. *)
Definition stays {A} (w : World) (r : Run A) : Prop :=
  match r with
  | Done _ w' => w' = w
  | Await _ w' k => w' = w /\ forall ans, exists res, k ans = Done res w
  end.

(** The configuration of the client: what [__init__] receives. *)
Definition same_config (c c' : OpenCodeClient) : Prop :=
  base_url c' = base_url c /\ model_provider c' = model_provider c /\
  model c' = model c /\ timeout c' = timeout c.

(** The environment with another content of the files. *)
Definition with_open_read (env : Env) (read' : string -> outcome string) : Env :=
  mkEnv (Path_resolve env) (os_path_exists env) (os_path_isfile env)
        (mimetypes_guess_type env) read'.

(** The environment with another file system and the same MIME table. *)
Definition same_mimetypes (env env' : Env) : Prop :=
  forall f, mimetypes_guess_type env' f = mimetypes_guess_type env f.

Definition delete_request (session_id : string) : request :=
  mkRequest DELETE ("/session/" ++ session_id) None.

Definition list_request : request := mkRequest GET "/session" None.

(** The request of [create_current_session]. *)
Definition create_request (title parent_id : option string) : request :=
  mkRequest POST "/session"
    (Some (JObj [("parentID", JStr (the_str (py_or parent_id (Some ""))));
                 ("title", json_of_opt_str title)])).

(** [kw] passes a value for the field [k]. *)
Definition has_key (kw : list (string * json)) (k : string) : bool :=
  match kw_lookup k kw with Some _ => true | None => false end.

(** What the constructor of a dataclass accepts when it is called on an
    unpacked payload: a mapping all of whose keys are fields and which
    passes every field without default value. *)
Definition constructor_accepts (fields required : list string) (payload : json)
  : bool :=
  match payload with
  | JObj kw => kw_known fields kw && forallb (has_key kw) required
  | _ => false
  end.

(** The elements of [items] decode, in order, to [decoded]. *)
Definition decodes_to {A} (decode : json -> outcome A)
           (items : list json) (decoded : list A) : Prop :=
  Forall2 (fun x a => decode x = Return a) items decoded.

(** Runs the prefix of an operation up to the guard on the resolved
    identifier and decides the guard with [H]. *)
Ltac resolve_with H :=
  unfold bind, get_self; simpl;
  match type of H with
  | truthy (resolved_id ?s ?w) = _ => fold (resolved_id s w)
  end;
  rewrite H; simpl.

(* ------------------------------------------------------------------ *)
(** ** Lemmas on the composition of the parts *)

Lemma raises_offline_Done {A} (e : exn) (w : World) :
  raises_offline (@Done A (Raise e) w) e w.
Proof. intros srv. reflexivity. Qed.

Lemma returns_offline_Done {A} (a : A) (w : World) :
  returns_offline (Done (Return a) w) a w.
Proof. intros srv. reflexivity. Qed.

Create HintDb offline.
#[local] Hint Resolve raises_offline_Done returns_offline_Done : offline.

Lemma append_texts_app (l : list string) (parts : list Part) :
  append_texts l parts = parts ++ text_parts l.
Proof.
  revert parts. induction l as [|t l IH]; intros parts; simpl.
  - now rewrite app_nil_r.
  - rewrite IH, <- app_assoc. reflexivity.
Qed.

Lemma attach_file_eq (env : Env) (f : string) (parts : list Part) :
  attach_file env f parts =
  match aborts env f with
  | Some e => ([], Raise e)
  | None => (skip_warning env f, Return (parts ++ map PFile (file_part_of env f)))
  end.
Proof.
  unfold attach_file, aborts, skip_warning, file_part_of, build_file, handled.
  destruct (is_remote f); simpl.
  - destruct (FilePart.from_url env f); reflexivity.
  - destruct (FilePart.from_file env f) as [p|e]; [reflexivity|].
    destruct (is_ValueError e); simpl; [now rewrite app_nil_r | reflexivity].
Qed.

Lemma attach_files_ok (env : Env) (fs : list string) :
  (forall f, In f fs -> aborts env f = None) ->
  forall parts,
    attach_files env fs parts =
    (flat_map (skip_warning env) fs, Return (parts ++ file_parts env fs)).
Proof.
  unfold file_parts.
  induction fs as [|f fs IH]; intros Hok parts; simpl.
  - now rewrite app_nil_r.
  - rewrite attach_file_eq, (Hok f (or_introl eq_refl)).
    rewrite IH by (intros g Hg; apply Hok; now right).
    now rewrite map_app, app_assoc.
Qed.

Lemma attach_files_Return (env : Env) (fs : list string) :
  forall parts ws ps,
    attach_files env fs parts = (ws, Return ps) ->
    forall f, In f fs -> aborts env f = None.
Proof.
  induction fs as [|f fs IH]; intros parts ws ps H g Hg; simpl in *.
  - contradiction.
  - rewrite attach_file_eq in H.
    destruct (aborts env f) as [e|] eqn:Ha; [discriminate|].
    destruct (attach_files env fs _) as [ws' r] eqn:Hr.
    destruct Hg as [<-|Hg]; [exact Ha|].
    destruct r as [ps'|e]; [|discriminate].
    eapply IH; eauto.
Qed.

Lemma attach_files_abort (env : Env) (fs : list string) :
  forall parts f e,
    In f fs -> aborts env f = Some e ->
    exists ws e' g,
      attach_files env fs parts = (ws, Raise e') /\
      In g fs /\ aborts env g = Some e'.
Proof.
  induction fs as [|h fs IH]; intros parts f e Hin Hab; simpl in *.
  - contradiction.
  - rewrite attach_file_eq.
    destruct (aborts env h) as [eh|] eqn:Hh.
    + exists [], eh, h. auto.
    + destruct Hin as [->|Hin]; [congruence|].
      destruct (IH (parts ++ map PFile (file_part_of env h)) f e Hin Hab)
        as (ws & e' & g & Heq & Hg & Hge).
      rewrite Heq. exists (skip_warning env h ++ ws), e', g. auto.
Qed.

Lemma compose_parts_eq (env : Env) (text : str_or_list) (file : option str_or_list) :
  compose_parts env text file =
  attach_files env (inputs_of file) (text_parts (texts_of text)).
Proof.
  unfold compose_parts, inputs_of.
  assert (Ht : match text with
               | Strs l => append_texts l []
               | Str s => [PText (TextPart.from_string s)]
               end = text_parts (texts_of text)).
  { destruct text; simpl; [reflexivity | now rewrite append_texts_app]. }
  rewrite Ht.
  destruct (input_truthy file) eqn:Hf; [|reflexivity].
  destruct file as [[f|l]|]; simpl; try reflexivity.
  destruct (attach_file env f _) as [ws [ps|e]]; simpl;
    [now rewrite app_nil_r | reflexivity].
Qed.

Lemma compose_parts_ok (env : Env) (text : str_or_list) (file : option str_or_list) :
  (forall f, In f (inputs_of file) -> aborts env f = None) ->
  compose_parts env text file =
  (flat_map (skip_warning env) (inputs_of file),
   Return (text_parts (texts_of text) ++ file_parts env (inputs_of file))).
Proof. intros H. rewrite compose_parts_eq. now apply attach_files_ok. Qed.

Lemma compose_parts_Return (env : Env) (text : str_or_list) (file : option str_or_list)
      (ws : list string) (ps : list Part) :
  compose_parts env text file = (ws, Return ps) ->
  ws = flat_map (skip_warning env) (inputs_of file) /\
  ps = text_parts (texts_of text) ++ file_parts env (inputs_of file).
Proof.
  intros H.
  assert (Hok : forall f, In f (inputs_of file) -> aborts env f = None).
  { rewrite compose_parts_eq in H. eapply attach_files_Return; eauto. }
  rewrite (compose_parts_ok env text file Hok) in H.
  inversion H. auto.
Qed.

(* ------------------------------------------------------------------ *)
(** ** Lemmas on [send_message] *)

Section SendMessage.

Variable env : Env.
Variables (text : str_or_list) (file : option str_or_list).
Variables (system_message session_id : option string).
Variable w : World.

Lemma send_message_unresolved :
  truthy (resolved_id session_id w) = false ->
  send_message env text file system_message session_id w =
  Done (Raise (ValueError msg_no_session)) w.
Proof.
  intros H. unfold send_message. resolve_with H. reflexivity.
Qed.

Lemma send_message_aborted (ws : list string) (e : exn) :
  truthy (resolved_id session_id w) = true ->
  compose_parts env text file = (ws, Raise e) ->
  send_message env text file system_message session_id w =
  Done (Raise e) (mkWorld (self w) (warned w ++ ws)).
Proof.
  intros H Hc. unfold send_message. resolve_with H.
  unfold emit. rewrite Hc. reflexivity.
Qed.

Lemma send_message_sent (ws : list string) (ps : list Part) :
  truthy (resolved_id session_id w) = true ->
  compose_parts env text file = (ws, Return ps) ->
  let um := UserMessage.make (model (self w)) (model_provider (self w)) ps
                             system_message in
  exists k,
    send_message env text file system_message session_id w =
    Await (message_request (the_str (resolved_id session_id w)) um)
          (sent_world w ws um) k /\
    forall ans, k ans = finish_send (sent_world w ws um) ans.
Proof.
  intros H Hc um. unfold send_message. resolve_with H.
  unfold emit. rewrite Hc. simpl.
  eexists. split; [reflexivity|].
  intros [res|e]; simpl; [|reflexivity].
  unfold raise_for_status. destruct (is_success res); simpl; [|reflexivity].
  unfold res_json. destruct (body res) as [payload|]; simpl; [|reflexivity].
  unfold lift. destruct (AssistantMessage.from_json payload); reflexivity.
Qed.

End SendMessage.

(* ------------------------------------------------------------------ *)
(** ** Lemmas on identifier resolution *)

Lemma resolved_id_empty (w : World) :
  resolved_id (Some "") w = resolved_id None w.
Proof. reflexivity. Qed.

Lemma resolved_id_no_session (sid : option string) (w : World) :
  _current_session (self w) = None ->
  truthy sid = false ->
  truthy (resolved_id sid w) = false.
Proof.
  intros Hc Hs. unfold resolved_id, py_or, current_session_id.
  rewrite Hs, Hc. reflexivity.
Qed.

Lemma delete_session_unresolved (sid : option string) (w : World) :
  truthy (resolved_id sid w) = false ->
  delete_session sid w = Done (Raise (ValueError msg_no_session)) w.
Proof.
  intros H. unfold delete_session. resolve_with H. reflexivity.
Qed.

Lemma abort_session_unresolved (sid : option string) (w : World) :
  truthy (resolved_id sid w) = false ->
  abort_session sid w = Done (Raise (ValueError msg_no_session)) w.
Proof.
  intros H. unfold abort_session. resolve_with H. reflexivity.
Qed.

Lemma update_session_unresolved (sid title : option string) (w : World) :
  truthy title = true ->
  truthy (resolved_id sid w) = false ->
  update_session sid title w = Done (Raise (ValueError msg_no_session)) w.
Proof.
  intros Ht H. unfold update_session. rewrite Ht. simpl.
  resolve_with H. reflexivity.
Qed.

Lemma update_session_no_title (sid title : option string) (w : World) :
  truthy title = false ->
  update_session sid title w = Done (Return tt) w.
Proof. intros Ht. unfold update_session. rewrite Ht. reflexivity. Qed.

(* ------------------------------------------------------------------ *)
(** ** Lemmas on [FilePart.from_file] *)

Section FromFile.

Variable env : Env.
Variable file : string.

Lemma from_file_not_regular :
  regular_file env file = false ->
  FilePart.from_file env file = Raise (ValueError FilePart.msg_not_exist).
Proof.
  unfold regular_file. intros H. unfold FilePart.from_file. now rewrite H.
Qed.

Lemma from_file_no_mimetype :
  regular_file env file = true ->
  truthy (guessed_type env file) = false ->
  FilePart.from_file env file = Raise (ValueError FilePart.msg_no_mimetype_path).
Proof.
  unfold regular_file, guessed_type. intros H Hm.
  unfold FilePart.from_file. now rewrite H, Hm.
Qed.

Lemma from_file_not_text (m : string) :
  regular_file env file = true ->
  guessed_type env file = Some m ->
  str_truthy m = true ->
  String.prefix "text/" m = false ->
  FilePart.from_file env file = Raise (ValueError (FilePart.msg_unsupported m)).
Proof.
  unfold regular_file, guessed_type. intros H Hm Hne Hp.
  unfold FilePart.from_file. rewrite H, Hm. simpl. now rewrite Hne, Hp.
Qed.

Lemma from_file_read (m : string) :
  regular_file env file = true ->
  guessed_type env file = Some m ->
  String.prefix "text/" m = true ->
  FilePart.from_file env file =
  match open_read env (Path_resolve env file) with
  | Return content =>
      Return (FilePart.mk m ("file://" ++ Path_resolve env file) "file" "" file
                (Some (whole_text (Path_resolve env file) content)))
  | Raise e => Raise e
  end.
Proof.
  unfold regular_file, guessed_type. intros H Hm Hp.
  unfold FilePart.from_file. rewrite H, Hm. simpl.
  assert (Hne : str_truthy m = true) by (destruct m; [discriminate | reflexivity]).
  rewrite Hne, Hp. simpl.
  unfold FileSource.from_file, FileSourceText.from_file.
  destruct (open_read env (Path_resolve env file)); reflexivity.
Qed.

(** The four ways in which [FilePart.from_file] ends. *)
Lemma from_file_cases :
  (regular_file env file = true /\
   exists m, guessed_type env file = Some m /\ String.prefix "text/" m = true) \/
  (exists msg,
      FilePart.from_file env file = Raise (ValueError msg) /\
      ~ (regular_file env file = true /\
         exists m, guessed_type env file = Some m /\ String.prefix "text/" m = true)).
Proof.
  destruct (regular_file env file) eqn:Hx.
  - destruct (guessed_type env file) as [m|] eqn:Hm.
    + destruct (String.prefix "text/" m) eqn:Hp; [left; eauto|].
      right. destruct (str_truthy m) eqn:Hne.
      * exists (FilePart.msg_unsupported m). split.
        -- now apply from_file_not_text.
        -- intros (_ & m' & Hm' & Hp'). congruence.
      * exists FilePart.msg_no_mimetype_path. split.
        -- apply from_file_no_mimetype; [exact Hx | now rewrite Hm].
        -- intros (_ & m' & Hm' & Hp'). congruence.
    + right. exists FilePart.msg_no_mimetype_path. split.
      * apply from_file_no_mimetype; [exact Hx | now rewrite Hm].
      * intros (_ & m' & Hm' & _). discriminate.
  - right. exists FilePart.msg_not_exist. split.
    + now apply from_file_not_regular.
    + intros (H & _). discriminate.
Qed.

End FromFile.

(* ------------------------------------------------------------------ *)
(** ** Session identifier resolution (claim C1) *)

(** C1, as amended: with no explicit session identifier and no current
    session, [delete_session], [abort_session] and [send_message] raise the
    "no session identifier available" [ValueError] without making any
    request and without changing the client; [update_session] does the same
    when it is given a title, and returns without error and without request
    when the title is missing or empty. *)
Theorem no_session_identifier_precondition
        (env : Env) (w : World) (text : str_or_list) (file : option str_or_list)
        (system_message title : option string) :
  _current_session (self w) = None ->
  raises_offline (delete_session None w) (ValueError msg_no_session) w /\
  raises_offline (abort_session None w) (ValueError msg_no_session) w /\
  raises_offline (send_message env text file system_message None w)
                 (ValueError msg_no_session) w /\
  (truthy title = true ->
   raises_offline (update_session None title w) (ValueError msg_no_session) w) /\
  (truthy title = false ->
   returns_offline (update_session None title w) tt w).
Proof.
  intros Hc.
  assert (Hr : truthy (resolved_id None w) = false)
    by (apply resolved_id_no_session; [exact Hc | reflexivity]).
  repeat split.
  - rewrite delete_session_unresolved by exact Hr. auto with offline.
  - rewrite abort_session_unresolved by exact Hr. auto with offline.
  - rewrite send_message_unresolved by exact Hr. auto with offline.
  - intros Ht. rewrite update_session_unresolved by assumption.
    auto with offline.
  - intros Ht. rewrite update_session_no_title by exact Ht.
    auto with offline.
Qed.

(** On the fresh sample client, deletion and a titled update are refused. *)
Lemma no_session_identifier_precondition_witness :
  _current_session (self Sample.w0) = None /\
  raises_offline (delete_session None Sample.w0) (ValueError msg_no_session) Sample.w0 /\
  raises_offline (update_session None (Some "hello") Sample.w0)
                 (ValueError msg_no_session) Sample.w0.
Proof.
  split; [reflexivity|].
  pose proof (no_session_identifier_precondition
                Sample.env Sample.w0 (Str "hi") None None (Some "hello") eq_refl)
    as (Hd & _ & _ & Hu & _).
  split; [exact Hd | exact (Hu eq_refl)].
Defined.

(** C1 as stated fails: on a fresh client, [update_session] called with
    neither identifier nor title returns normally instead of raising. *)
Lemma update_session_without_title_does_not_raise :
  _current_session (self Sample.w0) = None /\
  run_with Sample.server (update_session None None Sample.w0)
  = (Return tt, Sample.w0, []) /\
  ~ raises_offline (update_session None None Sample.w0)
                   (ValueError msg_no_session) Sample.w0.
Proof.
  split; [reflexivity|]. split; [reflexivity|].
  intros H. specialize (H Sample.server). discriminate H.
Qed.


(* ------------------------------------------------------------------ *)
(** ** File inspection (claim C9) *)

(** C9: [read_file], [search_file_by_name] and [search_file_by_text], and
    [_perform_file_operation] for their three operations, raise the
    "requires a query value" [ValueError] without any request when the
    query is missing or empty; [get_files_status] needs no query and goes
    straight to its request. *)
Theorem file_query_precondition (w : World) :
  (forall (operation : FileOperation) (query : option string),
      operation <> get_status ->
      query = None \/ query = Some "" ->
      raises_offline (_perform_file_operation operation query w)
                     (ValueError (msg_requires_query operation)) w) /\
  raises_offline (read_file "" w) (ValueError (msg_requires_query read)) w /\
  raises_offline (search_file_by_name "" w)
                 (ValueError (msg_requires_query search_by_name)) w /\
  raises_offline (search_file_by_text "" w)
                 (ValueError (msg_requires_query search_by_text)) w /\
  exists k, get_files_status w = Await (mkRequest GET "/file/status" None) w k.
Proof.
  assert (H : forall operation query,
             operation <> get_status ->
             query = None \/ query = Some "" ->
             _perform_file_operation operation query w
             = Done (Raise (ValueError (msg_requires_query operation))) w).
  { intros operation query Hop Hq. unfold _perform_file_operation.
    assert (Ht : truthy query = false) by (destruct Hq; subst; reflexivity).
    rewrite Ht. destruct operation; try reflexivity. now contradiction Hop. }
  split; [|split; [|split; [|split]]].
  - intros operation query Hop Hq. rewrite H by assumption.
    auto with offline.
  - unfold read_file. rewrite H by (auto; discriminate). apply raises_offline_Done.
  - unfold search_file_by_name. rewrite H by (auto; discriminate).
    apply raises_offline_Done.
  - unfold search_file_by_text. rewrite H by (auto; discriminate).
    apply raises_offline_Done.
  - eexists. reflexivity.
Qed.

(** Reading without a path is refused on the sample client. *)
Lemma file_query_precondition_witness :
  read <> get_status /\
  raises_offline (_perform_file_operation read None Sample.w0)
                 (ValueError "Operation read requires a query value.") Sample.w0.
Proof.
  split; [discriminate|].
  exact (proj1 (file_query_precondition Sample.w0) read None
               ltac:(discriminate) (or_introl eq_refl)).
Defined.

(* ------------------------------------------------------------------ *)
(** ** Sessions (claims C8 and C3) *)

(** C8: [create_current_session] posts to [/session] a body whose
    [parentID] is the given parent identifier, or the empty string when it
    is absent; when the call succeeds and the body decodes to a session,
    that session becomes the current session and is returned, so that the
    identifier of the current session is the one of the new session. *)
Theorem create_session_sets_current (w : World) (title parent_id : option string) :
  exists k,
    create_current_session title parent_id w =
    Await (mkRequest POST "/session"
             (Some (JObj [("parentID",
                           JStr (match parent_id with Some p => p | None => "" end));
                          ("title", json_of_opt_str title)])))
          w k /\
    forall (res : response) (payload : json) (s : Session.t),
      is_success res = true ->
      body res = Some payload ->
      Session.from_json payload = Return s ->
      k (Return res) = Done (Return s) (with_current w s) /\
      _current_session (self (with_current w s)) = Some s /\
      current_session_id (self (with_current w s)) = Some (Session.id s).
Proof.
  eexists. split.
  - unfold create_current_session, bind, client_post, http. simpl.
    assert (Hp : the_str (py_or parent_id (Some ""))
                 = match parent_id with Some p => p | None => "" end)
      by (destruct parent_id as [[|c p]|]; reflexivity).
    rewrite Hp. reflexivity.
  - intros res payload s Hs Hb Hd. split; [|split; reflexivity].
    simpl. unfold raise_for_status. rewrite Hs. simpl.
    unfold res_json. rewrite Hb. simpl.
    unfold lift. rewrite Hd. reflexivity.
Qed.

(** Against the sample server the created session becomes current. *)
Lemma create_session_sets_current_witness :
  run_with Sample.server (create_current_session (Some "test") None Sample.w0)
  = (Return Sample.session2, with_current Sample.w0 Sample.session2,
     [mkRequest POST "/session"
        (Some (JObj [("parentID", JStr ""); ("title", JStr "test")]))]) /\
  current_session_id (self (with_current Sample.w0 Sample.session2)) = Some "ses_2".
Proof.
  destruct (create_session_sets_current Sample.w0 (Some "test") None) as (k & Hk & Hs).
  destruct (Hs (mkResponse 200 (Some (Sample.session_json Sample.session2)))
               (Sample.session_json Sample.session2) Sample.session2
               eq_refl eq_refl eq_refl) as (Hr & _ & Hid).
  split; [|exact Hid].
  rewrite Hk. simpl. change (Sample.server _) with
    (@Return response (mkResponse 200 (Some (Sample.session_json Sample.session2)))).
  rewrite Hr. reflexivity.
Defined.

Lemma list_sessions_world (w : World) :
  exists k,
    list_sessions w = Await (mkRequest GET "/session" None) w k /\
    forall ans, exists r, k ans = Done r w.
Proof.
  eexists. split; [reflexivity|].
  intros [res|e]; [|simpl; eauto].
  unfold bind, raise_for_status, res_json, lift, ret, raise. simpl.
  destruct (is_success res); simpl; [|eauto].
  destruct (body res) as [payload|]; simpl; [|eauto].
  destruct (py_iter payload) as [items|e]; simpl; [|eauto].
  destruct (decode_each Session.from_json items []); simpl; eauto.
Qed.

(** C3, the behaviour of the code: the client object has no session cache
    among its attributes, and [list_sessions] leaves the whole client as it
    was, whatever the server answers; with a server that knows two sessions
    it returns both, in the order received, and stores nothing. *)
Theorem list_sessions_keeps_no_cache :
  (forall c : OpenCodeClient, hasattr c "_sessions" = false) /\
  (forall (w : World) (srv : transport),
      world_of (run_with srv (list_sessions w)) = w) /\
  run_with Sample.server (list_sessions Sample.w0)
  = (Return [Sample.session1; Sample.session2], Sample.w0,
     [mkRequest GET "/session" None]).
Proof.
  split; [reflexivity|]. split; [|reflexivity].
  intros w srv. destruct (list_sessions_world w) as (k & Hk & Hd).
  rewrite Hk. simpl. destruct (Hd (srv (mkRequest GET "/session" None))) as (r & Hr).
  rewrite Hr. reflexivity.
Qed.

(* ------------------------------------------------------------------ *)
(** ** Messages (claims C7, C6, C5 and C2) *)

Lemma attach_files_app (env : Env) (l1 l2 : list string) :
  forall parts,
    attach_files env (l1 ++ l2) parts =
    match attach_files env l1 parts with
    | (ws, Return p1) =>
        let (ws2, r) := attach_files env l2 p1 in (ws ++ ws2, r)
    | (ws, Raise e) => (ws, Raise e)
    end.
Proof.
  induction l1 as [|f l1 IH]; intros parts; simpl.
  - destruct (attach_files env l2 parts); reflexivity.
  - destruct (attach_file env f parts) as [ws [p|e]]; [|reflexivity].
    rewrite IH.
    destruct (attach_files env l1 p) as [ws1 [p1|e1]]; [|reflexivity].
    destruct (attach_files env l2 p1) as [ws2 r].
    now rewrite app_assoc.
Qed.

Lemma aborts_remote (env : Env) (f : string) :
  is_remote f = true ->
  truthy (_raw_guess_mimetypes env f) = false ->
  aborts env f = Some (ValueError FilePart.msg_no_mimetype_url).
Proof.
  intros Hr Hm. unfold aborts, build_file, handled, FilePart.from_url.
  rewrite Hr, Hm. reflexivity.
Qed.

Lemma aborts_cases (env : Env) (g : string) (e : exn) :
  aborts env g = Some e ->
  e = ValueError FilePart.msg_no_mimetype_url \/
  (is_remote g = false /\ FilePart.from_file env g = Raise e /\
   is_ValueError e = false).
Proof.
  unfold aborts, build_file, handled, FilePart.from_url.
  destruct (is_remote g); simpl.
  - destruct (truthy (_raw_guess_mimetypes env g)); simpl; [discriminate|].
    intros H. left. congruence.
  - destruct (FilePart.from_file env g) as [p|e0]; [discriminate|].
    destruct (is_ValueError e0) eqn:Hv; [discriminate|].
    intros H. right. inversion H. subst. auto.
Qed.

Lemma handled_not_aborts (env : Env) (fs : list string) :
  (forall f e, In f fs -> build_file env f = Raise e -> handled f e = true) ->
  forall f, In f fs -> aborts env f = None.
Proof.
  intros H f Hin. unfold aborts.
  destruct (build_file env f) as [p|e] eqn:Hb; [reflexivity|].
  now rewrite (H f e Hin Hb).
Qed.

(** C7: when [send_message] has resolved the session identifier and
    composed the parts, it is suspended on its single request with the
    user message already appended to the history; if the transport raises,
    the status is not a success or the body does not decode, the exception
    leaves the history in that state; on success the decoded assistant
    message is appended right after the user message. *)
Theorem user_message_recorded_before_request
        (env : Env) (w : World) (text : str_or_list) (file : option str_or_list)
        (system_message session_id : option string)
        (ws : list string) (ps : list Part) :
  truthy (resolved_id session_id w) = true ->
  compose_parts env text file = (ws, Return ps) ->
  let um := UserMessage.make (model (self w)) (model_provider (self w)) ps
                             system_message in
  let w1 := sent_world w ws um in
  exists k,
    send_message env text file system_message session_id w =
    Await (message_request (the_str (resolved_id session_id w)) um) w1 k /\
    chat_history (self w1) = chat_history (self w) ++ [User um] /\
    (forall e, k (Raise e) = Done (Raise e) w1) /\
    (forall res, is_success res = false ->
                 k (Return res) = Done (Raise (HTTPStatusError (status_code res))) w1) /\
    (forall res payload am,
        is_success res = true ->
        body res = Some payload ->
        AssistantMessage.from_json payload = Return am ->
        k (Return res) = Done (Return am) (answered_world w1 am) /\
        chat_history (self (answered_world w1 am)) =
        chat_history (self w) ++ [User um; Assistant am]) /\
    (forall ans,
        match k ans with
        | Done (Return _) _ => True
        | Done (Raise _) w2 => w2 = w1
        | Await _ _ _ => False
        end).
Proof.
  intros Hr Hc um w1.
  destruct (send_message_sent env text file system_message session_id w ws ps Hr Hc)
    as (k & Hk & Hf).
  exists k. split; [exact Hk|]. split; [reflexivity|].
  split; [|split; [|split]].
  - intros e. rewrite Hf. reflexivity.
  - intros res Hs. rewrite Hf. simpl. now rewrite Hs.
  - intros res payload am Hs Hb Hd. rewrite Hf. simpl. rewrite Hs, Hb, Hd.
    split; [reflexivity|]. simpl. now rewrite <- app_assoc.
  - intros ans. rewrite Hf. unfold finish_send.
    destruct ans as [res|e]; [|reflexivity].
    destruct (is_success res); [|reflexivity].
    destruct (body res) as [payload|]; [|reflexivity].
    destruct (AssistantMessage.from_json payload); [exact I | reflexivity].
Qed.

(** The history of the sample client after a send, with the server down
    and with the server answering. *)
Lemma user_message_recorded_before_request_witness :
  let um := UserMessage.make "gpt-5" "openai" [PText (TextPart.from_string "hi")] None in
  truthy (resolved_id None Sample.w1) = true /\
  chat_history (self (world_of (run_with Sample.down
    (send_message Sample.env (Str "hi") None None None Sample.w1)))) = [User um] /\
  chat_history (self (world_of (run_with Sample.server
    (send_message Sample.env (Str "hi") None None None Sample.w1))))
  = [User um; Assistant Sample.reply].
Proof.
  intros um. split; [reflexivity|].
  destruct (user_message_recorded_before_request
              Sample.env Sample.w1 (Str "hi") None None None []
              [PText (TextPart.from_string "hi")] eq_refl eq_refl)
    as (k & Hk & _ & He & _ & Hok & _).
  rewrite Hk. simpl. split.
  - unfold Sample.down. rewrite He. reflexivity.
  - destruct (Hok (mkResponse 200 (Some Sample.reply_json)) Sample.reply_json
                  Sample.reply eq_refl eq_refl eq_refl) as (Hr & _).
    change (Sample.server _) with
      (@Return response (mkResponse 200 (Some Sample.reply_json))).
    rewrite Hr. reflexivity.
Defined.

(** C6: whenever [send_message] issues its request, the message sent and
    recorded carries one [TextPart] per text input, in input order,
    followed by the [FilePart]s, which come in the order of the file inputs
    they were built from. *)
Theorem parts_in_input_order
        (env : Env) (w : World) (text : str_or_list) (file : option str_or_list)
        (system_message session_id : option string)
        (req : request) (w1 : World) (k : outcome response -> Run AssistantMessage.t) :
  send_message env text file system_message session_id w = Await req w1 k ->
  exists um,
    req = message_request (the_str (resolved_id session_id w)) um /\
    chat_history (self w1) = chat_history (self w) ++ [User um] /\
    UserMessage.parts um =
    map (fun t => PText (TextPart.from_string t)) (texts_of text)
    ++ map PFile (flat_map (file_part_of env) (inputs_of file)).
Proof.
  intros H.
  destruct (truthy (resolved_id session_id w)) eqn:Hr.
  - destruct (compose_parts env text file) as [ws [ps|e]] eqn:Hc.
    + destruct (send_message_sent env text file system_message session_id w ws ps Hr Hc)
        as (k' & Hk & _).
      rewrite Hk in H. inversion H; subst.
      eexists. split; [reflexivity|]. split; [reflexivity|].
      simpl. apply (compose_parts_Return env text file ws ps Hc).
    + rewrite (send_message_aborted env text file system_message session_id w ws e Hr Hc)
        in H.
      discriminate.
  - rewrite (send_message_unresolved env text file system_message session_id w Hr) in H.
    discriminate.
Qed.

(** Two texts, a local file and a remote one: two text parts, then two
    file parts. *)
Lemma parts_in_input_order_witness :
  exists um w1 k,
    send_message Sample.env (Strs ["a"; "b"])
                 (Some (Strs ["notes.txt"; "http://host/x.md"])) None None Sample.w1
    = Await (message_request "ses_1" um) w1 k /\
    map is_text_part (UserMessage.parts um) = [true; true; false; false] /\
    map Part_asdict (firstn 2 (UserMessage.parts um))
    = [JObj [("text", JStr "a"); ("type", JStr "text")];
       JObj [("text", JStr "b"); ("type", JStr "text")]].
Proof.
  destruct (send_message Sample.env (Strs ["a"; "b"])
              (Some (Strs ["notes.txt"; "http://host/x.md"])) None None Sample.w1)
    as [r w'|req w1 k] eqn:Hs; [discriminate Hs|].
  destruct (parts_in_input_order _ _ _ _ _ _ _ _ _ Hs) as (um & Hreq & _ & Hp).
  exists um, w1, k. rewrite Hreq. split; [reflexivity|].
  rewrite Hp. split; reflexivity.
Defined.

(** C5: if a file input of [send_message] carries one of the remote
    prefixes and no MIME type is guessed for it, the send is aborted: an
    exception reaches the caller, no request is made and no message is
    recorded.  The exception is the [ValueError] of [FilePart.from_url],
    unless an earlier local input had already aborted the composition with
    an exception that is not a [ValueError]; when no earlier input aborts,
    it is that [ValueError], after the warnings of the earlier inputs. *)
Theorem remote_mime_failure_aborts_send
        (env : Env) (w : World) (text : str_or_list) (file : option str_or_list)
        (system_message session_id : option string) (f : string) :
  truthy (resolved_id session_id w) = true ->
  In f (inputs_of file) ->
  is_remote f = true ->
  truthy (_raw_guess_mimetypes env f) = false ->
  (exists e ws,
      raises_offline (send_message env text file system_message session_id w)
                     e (mkWorld (self w) (warned w ++ ws)) /\
      (e = ValueError FilePart.msg_no_mimetype_url \/
       exists g, In g (inputs_of file) /\ is_remote g = false /\
                 FilePart.from_file env g = Raise e /\ is_ValueError e = false)) /\
  (forall pre post,
      inputs_of file = pre ++ f :: post ->
      (forall g, In g pre -> aborts env g = None) ->
      raises_offline (send_message env text file system_message session_id w)
                     (ValueError FilePart.msg_no_mimetype_url)
                     (mkWorld (self w) (warned w ++ flat_map (skip_warning env) pre))).
Proof.
  intros Hr Hin Hrem Hm.
  pose proof (aborts_remote env f Hrem Hm) as Hab.
  split.
  - destruct (attach_files_abort env (inputs_of file) (text_parts (texts_of text))
                                 f _ Hin Hab) as (ws & e' & g & Heq & Hg & Hge).
    rewrite <- compose_parts_eq in Heq.
    exists e', ws. split.
    + rewrite (send_message_aborted env text file system_message session_id w
                                    ws e' Hr Heq).
      apply raises_offline_Done.
    + destruct (aborts_cases env g e' Hge) as [He|He]; [left; exact He|].
      right. exists g. tauto.
  - intros pre post Hsplit Hpre.
    assert (Heq : compose_parts env text file
                  = (flat_map (skip_warning env) pre,
                     Raise (ValueError FilePart.msg_no_mimetype_url))).
    { rewrite compose_parts_eq, Hsplit, attach_files_app.
      rewrite (attach_files_ok env pre Hpre). simpl.
      rewrite attach_file_eq, Hab. now rewrite app_nil_r. }
    rewrite (send_message_aborted env text file system_message session_id w _ _ Hr Heq).
    apply raises_offline_Done.
Qed.

(** A remote input without extension between a missing file and a valid
    one: the missing file is warned about, then the send is aborted. *)
Lemma remote_mime_failure_aborts_send_witness :
  truthy (resolved_id None Sample.w1) = true /\
  is_remote "http://host/data" = true /\
  truthy (_raw_guess_mimetypes Sample.env "http://host/data") = false /\
  run_with Sample.server
    (send_message Sample.env (Str "hi")
       (Some (Strs ["gone.txt"; "http://host/data"; "notes.txt"])) None None Sample.w1)
  = (Raise (ValueError FilePart.msg_no_mimetype_url),
     mkWorld (self Sample.w1)
       [warning_text "gone.txt" (ValueError FilePart.msg_not_exist)],
     []).
Proof.
  split; [reflexivity|]. split; [reflexivity|]. split; [reflexivity|].
  destruct (remote_mime_failure_aborts_send
              Sample.env Sample.w1 (Str "hi")
              (Some (Strs ["gone.txt"; "http://host/data"; "notes.txt"])) None None
              "http://host/data" eq_refl (or_intror (or_introl eq_refl)) eq_refl eq_refl)
    as (_ & H).
  refine (H ["gone.txt"] ["notes.txt"] eq_refl _ Sample.server).
  intros g [<-|[]]. reflexivity.
Defined.

(** C2, as amended: a local file input whose construction raises a
    [ValueError] -- the path is not an existing regular file, no MIME type
    is guessed, or the guessed type is not a text type -- is caught by the
    composer: one warning is issued, the parts are left as they were and the
    composition goes on.  When every failing input of a call is of that
    kind, the send is not aborted: the request is issued with the text
    parts followed by the parts of the inputs that could be built.  One
    valid local file together with one such failing local file gives
    exactly one [FilePart]. *)
Theorem local_value_errors_are_skipped (env : Env) :
  (forall (f : string),
      regular_file env f = false \/
      truthy (guessed_type env f) = false \/
      String.prefix "text/" (the_str (guessed_type env f)) = false ->
      exists msg, FilePart.from_file env f = Raise (ValueError msg)) /\
  (forall (f : string) (e : exn) (parts : list Part),
      is_remote f = false ->
      FilePart.from_file env f = Raise e ->
      is_ValueError e = true ->
      attach_file env f parts = ([warning_text f e], Return parts) /\
      forall rest,
        attach_files env (f :: rest) parts =
        (warning_text f e :: fst (attach_files env rest parts),
         snd (attach_files env rest parts))) /\
  (forall (w : World) (text : str_or_list) (file : option str_or_list)
          (system_message session_id : option string),
      truthy (resolved_id session_id w) = true ->
      (forall f e, In f (inputs_of file) ->
                   build_file env f = Raise e -> handled f e = true) ->
      let um := UserMessage.make (model (self w)) (model_provider (self w))
                  (text_parts (texts_of text) ++ file_parts env (inputs_of file))
                  system_message in
      exists k,
        send_message env text file system_message session_id w =
        Await (message_request (the_str (resolved_id session_id w)) um)
              (sent_world w (flat_map (skip_warning env) (inputs_of file)) um) k) /\
  (forall (text : str_or_list) (good bad : string) (p : FilePart.t) (e : exn),
      is_remote good = false ->
      is_remote bad = false ->
      FilePart.from_file env good = Return p ->
      FilePart.from_file env bad = Raise e ->
      is_ValueError e = true ->
      compose_parts env text (Some (Strs [good; bad]))
      = ([warning_text bad e], Return (text_parts (texts_of text) ++ [PFile p])) /\
      compose_parts env text (Some (Strs [bad; good]))
      = ([warning_text bad e], Return (text_parts (texts_of text) ++ [PFile p]))).
Proof.
  split; [|split; [|split]].
  - intros f H.
    destruct (from_file_cases env f) as [(Hx & m & Hm & Hp)|(msg & Hf & _)];
      [|eauto].
    rewrite Hx, Hm in H. simpl in H. rewrite Hp in H.
    assert (Hne : str_truthy m = true) by (destruct m; [discriminate | reflexivity]).
    rewrite Hne in H. destruct H as [H|[H|H]]; discriminate.
  - intros f e parts Hr Hf He.
    assert (Ha : attach_file env f parts = ([warning_text f e], Return parts)).
    { unfold attach_file. now rewrite Hr, Hf, He. }
    split; [exact Ha|].
    intros rest. simpl. rewrite Ha.
    destruct (attach_files env rest parts); reflexivity.
  - intros w text file system_message session_id Hr Hh um.
    pose proof (compose_parts_ok env text file
                  (handled_not_aborts env (inputs_of file) Hh)) as Hc.
    destruct (send_message_sent env text file system_message session_id w _ _ Hr Hc)
      as (k & Hk & _).
    exists k. exact Hk.
  - intros text good bad p e Hg Hb Hfg Hfb He.
    rewrite !compose_parts_eq. simpl.
    unfold attach_file. rewrite Hg, Hb, Hfg, Hfb, He. simpl.
    split; reflexivity.
Qed.

(** A valid file and a missing one: one warning, one file part, and the
    request is issued. *)
Lemma local_value_errors_are_skipped_witness :
  is_remote "notes.txt" = false /\
  is_remote "gone.txt" = false /\
  FilePart.from_file Sample.env "gone.txt" = Raise (ValueError FilePart.msg_not_exist) /\
  (exists p,
      compose_parts Sample.env (Str "hi") (Some (Strs ["notes.txt"; "gone.txt"]))
      = ([warning_text "gone.txt" (ValueError FilePart.msg_not_exist)],
         Return [PText (TextPart.from_string "hi"); PFile p])) /\
  (exists um k,
      send_message Sample.env (Str "hi") (Some (Strs ["notes.txt"; "gone.txt"]))
                   None None Sample.w1
      = Await (message_request "ses_1" um)
              (sent_world Sample.w1
                 [warning_text "gone.txt" (ValueError FilePart.msg_not_exist)] um) k /\
      map is_file_part (UserMessage.parts um) = [false; true]).
Proof.
  destruct (local_value_errors_are_skipped Sample.env) as (_ & _ & Hsend & Hmix).
  split; [reflexivity|]. split; [reflexivity|]. split; [reflexivity|]. split.
  - destruct (FilePart.from_file Sample.env "notes.txt") as [p|e] eqn:Hp;
      [|discriminate Hp].
    exists p.
    exact (proj1 (Hmix (Str "hi") "notes.txt" "gone.txt" p
                       (ValueError FilePart.msg_not_exist)
                       eq_refl eq_refl Hp eq_refl eq_refl)).
  - destruct (Hsend Sample.w1 (Str "hi") (Some (Strs ["notes.txt"; "gone.txt"]))
                    None None eq_refl) as (k & Hk).
    + intros f e [<-|[<-|[]]] H; vm_compute in H; inversion H; reflexivity.
    + eexists. exists k. split; [exact Hk | reflexivity].
Defined.

(** C2 as stated fails: a local file that exists with a text MIME type but
    cannot be opened makes [open] raise an [OSError], which is not a
    [ValueError]; it is not caught, and the whole send is aborted although
    the other file is valid. *)
Lemma unreadable_local_file_aborts_send :
  is_remote "secret.txt" = false /\
  FilePart.from_file Sample.env "secret.txt"
  = Raise (OSError "[Errno 13] Permission denied: '/work/secret.txt'") /\
  is_Return (FilePart.from_file Sample.env "notes.txt") = true /\
  run_with Sample.server
    (send_message Sample.env (Str "hi") (Some (Strs ["notes.txt"; "secret.txt"]))
                  None None Sample.w1)
  = (Raise (OSError "[Errno 13] Permission denied: '/work/secret.txt'"),
     Sample.w1, []).
Proof. repeat split. Qed.

(* ------------------------------------------------------------------ *)
(** ** Local file parts (claim C4) *)

(** C4, as amended: [FilePart.from_file] succeeds exactly when the
    resolved path exists as a regular file, a MIME type beginning with
    [text/] is guessed for it and the file can be read as text; the part
    then has the URL [file://] followed by the resolved path and a source
    whose text is the whole content, with [start] 0 and [end] its length.
    A path that is not an existing regular file, a path with no guessed
    MIME type and a path with a guessed type outside [text/] each fail with
    the [ValueError] of their case. *)
Theorem from_file_success_condition (env : Env) (file : string) :
  (is_Return (FilePart.from_file env file) = true <->
   regular_file env file = true /\
   (exists m, guessed_type env file = Some m /\ String.prefix "text/" m = true) /\
   is_Return (open_read env (Path_resolve env file)) = true) /\
  (forall p,
      FilePart.from_file env file = Return p ->
      FilePart.url p = ("file://" ++ Path_resolve env file)%string /\
      String.prefix "text/" (FilePart.mime p) = true /\
      exists content src,
        open_read env (Path_resolve env file) = Return content /\
        FilePart.source p = Some src /\
        FileSource.path src = Path_resolve env file /\
        FileSourceText.value (FileSource.text src) = content /\
        FileSourceText.start (FileSource.text src) = 0%Z /\
        FileSourceText.end_ (FileSource.text src) = Z.of_nat (String.length content)) /\
  (regular_file env file = false ->
   FilePart.from_file env file = Raise (ValueError FilePart.msg_not_exist)) /\
  (regular_file env file = true ->
   truthy (guessed_type env file) = false ->
   FilePart.from_file env file = Raise (ValueError FilePart.msg_no_mimetype_path)) /\
  (forall m,
      regular_file env file = true ->
      guessed_type env file = Some m ->
      str_truthy m = true ->
      String.prefix "text/" m = false ->
      FilePart.from_file env file = Raise (ValueError (FilePart.msg_unsupported m))).
Proof.
  split; [|split; [|split; [|split]]].
  - destruct (from_file_cases env file) as [(Hx & m & Hm & Hp)|(msg & Hf & Hn)].
    + rewrite (from_file_read env file m Hx Hm Hp).
      destruct (open_read env (Path_resolve env file)); simpl; split.
      * intros _. eauto.
      * reflexivity.
      * discriminate.
      * intros (_ & _ & H). exact H.
    + rewrite Hf. simpl. split; [discriminate|].
      intros (Hx & Hm & _). exfalso. apply Hn. auto.
  - intros p Hp.
    destruct (from_file_cases env file) as [(Hx & m & Hm & Hpre)|(msg & Hf & _)];
      [|congruence].
    rewrite (from_file_read env file m Hx Hm Hpre) in Hp.
    destruct (open_read env (Path_resolve env file)) as [content|e]; [|discriminate].
    inversion Hp; subst p; simpl. split; [reflexivity|]. split; [exact Hpre|].
    exists content, (whole_text (Path_resolve env file) content). repeat split.
  - apply from_file_not_regular.
  - apply from_file_no_mimetype.
  - intros m. apply from_file_not_text.
Qed.

(** [notes.txt] holds five characters; [logo.png] is not a text file. *)
Lemma from_file_success_condition_witness :
  regular_file Sample.env "notes.txt" = true /\
  (exists p,
      FilePart.from_file Sample.env "notes.txt" = Return p /\
      FilePart.url p = "file:///work/notes.txt" /\
      (forall src, FilePart.source p = Some src ->
                   FileSourceText.start (FileSource.text src) = 0%Z /\
                   FileSourceText.end_ (FileSource.text src) = 5%Z)) /\
  FilePart.from_file Sample.env "logo.png"
  = Raise (ValueError "Unsopported type: image/png").
Proof.
  split; [reflexivity|]. split.
  - destruct (from_file_success_condition Sample.env "notes.txt") as (Hiff & Hok & _).
    destruct (FilePart.from_file Sample.env "notes.txt") as [p|e] eqn:Hp.
    + exists p.
      destruct (Hok p eq_refl) as (Hu & _ & content & src & Hc & Hs & _ & _ & H0 & Hn).
      split; [reflexivity|]. split; [exact Hu|].
      intros src' Hs'. rewrite Hs in Hs'. inversion Hs'; subst src'.
      split; [exact H0|].
      rewrite Hn. vm_compute in Hc. inversion Hc. reflexivity.
    + exfalso. assert (H : false = true); [|discriminate H].
      apply (proj2 Hiff). split; [reflexivity|]. split; [|reflexivity].
      exists "text/plain". split; reflexivity.
  - destruct (from_file_success_condition Sample.env "logo.png") as (_ & _ & _ & _ & H).
    exact (H "image/png" eq_refl eq_refl eq_refl eq_refl).
Defined.

(** C4 as stated fails: [secret.txt] exists as a regular file and its MIME
    type is [text/plain], yet the construction does not succeed, because
    the file cannot be opened; the exception is the [OSError] of [open]. *)
Lemma regular_text_file_may_fail :
  regular_file Sample.env "secret.txt" = true /\
  guessed_type Sample.env "secret.txt" = Some "text/plain" /\
  is_Return (FilePart.from_file Sample.env "secret.txt") = false /\
  FilePart.from_file Sample.env "secret.txt"
  = Raise (OSError "[Errno 13] Permission denied: '/work/secret.txt'").
Proof. repeat split. Qed.

(* ------------------------------------------------------------------ *)
(** ** The session operations on a resolved identifier (claim C10) *)

Lemma resolved_id_explicit (sid : string) (w : World) :
  str_truthy sid = true -> resolved_id (Some sid) w = Some sid.
Proof. intros H. unfold resolved_id, py_or. simpl. now rewrite H. Qed.

Lemma resolved_id_current (sid : option string) (w : World) (s : Session.t) :
  truthy sid = false ->
  _current_session (self w) = Some s ->
  resolved_id sid w = Some (Session.id s).
Proof.
  intros Hs Hc. unfold resolved_id, py_or, current_session_id.
  now rewrite Hs, Hc.
Qed.

Lemma status_check_Done (w : World) (ans : outcome response) :
  bind_run (Done ans w) raise_for_status = Done (status_outcome ans) w.
Proof.
  destruct ans as [res|e]; simpl; [|reflexivity].
  unfold raise_for_status. destruct (is_success res); reflexivity.
Qed.

Lemma delete_session_resolved (sid : option string) (w : World) :
  truthy (resolved_id sid w) = true ->
  exists k,
    delete_session sid w = Await (delete_request (the_str (resolved_id sid w))) w k /\
    forall ans, k ans = Done (status_outcome ans) w.
Proof.
  intros H. unfold delete_session. resolve_with H.
  eexists. split; [reflexivity|]. intros ans. apply status_check_Done.
Qed.

Lemma abort_session_resolved (sid : option string) (w : World) :
  truthy (resolved_id sid w) = true ->
  exists k,
    abort_session sid w =
    Await (mkRequest POST ("/session/" ++ the_str (resolved_id sid w) ++ "/abort") None)
          w k /\
    forall ans, k ans = Done (status_outcome ans) w.
Proof.
  intros H. unfold abort_session. resolve_with H.
  eexists. split; [reflexivity|]. intros ans. apply status_check_Done.
Qed.

Lemma update_session_resolved (sid title : option string) (w : World) :
  truthy title = true ->
  truthy (resolved_id sid w) = true ->
  exists k,
    update_session sid title w =
    Await (mkRequest PATCH ("/session/" ++ the_str (resolved_id sid w))
             (Some (JObj [("title", JStr (the_str title))])))
          w k /\
    forall ans, k ans = Done (status_outcome ans) w.
Proof.
  intros Ht H. unfold update_session. rewrite Ht. simpl. resolve_with H.
  eexists. split; [reflexivity|]. intros ans. apply status_check_Done.
Qed.

(** C10: for the four identifier-resolving operations an explicit empty
    session identifier behaves exactly as an absent one: the operation is
    the same run; resolution falls back to the identifier of the current
    session, so that with a current session the operation called with the
    empty string sends its request to that session; and without a current
    session the "no session identifier available" [ValueError] is raised
    before any request ([update_session] reaches resolution once it has a
    title, [send_message] sends once the parts are composed). *)
Theorem empty_session_id_is_no_id
        (env : Env) (w : World) (text : str_or_list) (file : option str_or_list)
        (system_message title : option string) :
  (delete_session (Some "") w = delete_session None w /\
   abort_session (Some "") w = abort_session None w /\
   update_session (Some "") title w = update_session None title w /\
   send_message env text file system_message (Some "") w
   = send_message env text file system_message None w) /\
  resolved_id (Some "") w = current_session_id (self w) /\
  (forall s,
      _current_session (self w) = Some s ->
      str_truthy (Session.id s) = true ->
      (exists k,
          delete_session (Some "") w
          = Await (mkRequest DELETE ("/session/" ++ Session.id s) None) w k /\
          forall ans, k ans = Done (status_outcome ans) w) /\
      (exists k,
          abort_session (Some "") w
          = Await (mkRequest POST ("/session/" ++ Session.id s ++ "/abort") None) w k /\
          forall ans, k ans = Done (status_outcome ans) w) /\
      (truthy title = true ->
       exists k,
         update_session (Some "") title w
         = Await (mkRequest PATCH ("/session/" ++ Session.id s)
                    (Some (JObj [("title", JStr (the_str title))]))) w k /\
         forall ans, k ans = Done (status_outcome ans) w) /\
      (forall ws ps,
          compose_parts env text file = (ws, Return ps) ->
          let um := UserMessage.make (model (self w)) (model_provider (self w)) ps
                                     system_message in
          exists k,
            send_message env text file system_message (Some "") w
            = Await (mkRequest POST ("/session/" ++ Session.id s ++ "/message")
                       (Some (UserMessage.asdict um)))
                    (sent_world w ws um) k)) /\
  (_current_session (self w) = None ->
   raises_offline (delete_session (Some "") w) (ValueError msg_no_session) w /\
   raises_offline (abort_session (Some "") w) (ValueError msg_no_session) w /\
   raises_offline (send_message env text file system_message (Some "") w)
                  (ValueError msg_no_session) w /\
   (truthy title = true ->
    raises_offline (update_session (Some "") title w)
                   (ValueError msg_no_session) w)).
Proof.
  split; [repeat split; reflexivity|].
  split; [reflexivity|].
  split.
  - intros s Hc Hid.
    assert (Hr : resolved_id (Some "") w = Some (Session.id s))
      by (apply resolved_id_current; [reflexivity | exact Hc]).
    assert (Hr' : truthy (resolved_id (Some "") w) = true) by now rewrite Hr.
    split; [|split; [|split]].
    + destruct (delete_session_resolved (Some "") w Hr') as (k & Hk & Hans).
      rewrite Hr in Hk. exists k. split; [exact Hk | exact Hans].
    + destruct (abort_session_resolved (Some "") w Hr') as (k & Hk & Hans).
      rewrite Hr in Hk. exists k. split; [exact Hk | exact Hans].
    + intros Ht.
      destruct (update_session_resolved (Some "") title w Ht Hr') as (k & Hk & Hans).
      rewrite Hr in Hk. exists k. split; [exact Hk | exact Hans].
    + intros ws ps Hcp um.
      destruct (send_message_sent env text file system_message (Some "") w
                  ws ps Hr' Hcp) as (k & Hk & _).
      rewrite Hr in Hk. exists k. exact Hk.
  - intros Hc.
    assert (Hr : truthy (resolved_id (Some "") w) = false)
      by (apply resolved_id_no_session; [exact Hc | reflexivity]).
    repeat split.
    + rewrite delete_session_unresolved by exact Hr. auto with offline.
    + rewrite abort_session_unresolved by exact Hr. auto with offline.
    + rewrite send_message_unresolved by exact Hr. auto with offline.
    + intros Ht. rewrite update_session_unresolved by assumption.
      auto with offline.
Qed.

(** With the sample session current, the empty identifier makes the
    deletion and the abort address [ses_1]; on the fresh client the abort
    is refused. *)
Lemma empty_session_id_is_no_id_witness :
  _current_session (self Sample.w0) = None /\
  resolved_id (Some "") Sample.w1 = Some "ses_1" /\
  run_with Sample.server (delete_session (Some "") Sample.w1)
  = (Return tt, Sample.w1, [mkRequest DELETE "/session/ses_1" None]) /\
  run_with Sample.server (abort_session (Some "") Sample.w1)
  = (Return tt, Sample.w1, [mkRequest POST "/session/ses_1/abort" None]) /\
  raises_offline (abort_session (Some "") Sample.w0)
                 (ValueError msg_no_session) Sample.w0.
Proof.
  split; [reflexivity|].
  pose proof (empty_session_id_is_no_id
                Sample.env Sample.w1 (Str "hi") None None None) as (_ & Hr & Hcur & _).
  split; [exact Hr|].
  destruct (Hcur Sample.session1 eq_refl eq_refl)
    as ((kd & Hd & Hdk) & (ka & Ha & Hak) & _).
  split; [|split].
  - rewrite Hd. simpl. rewrite Hdk. reflexivity.
  - rewrite Ha. simpl. rewrite Hak. reflexivity.
  - pose proof (empty_session_id_is_no_id
                  Sample.env Sample.w0 (Str "hi") None None None) as (_ & _ & _ & Hn).
    exact (proj1 (proj2 (Hn eq_refl))).
Defined.

(** X1: once the session identifier resolves, [delete_session],
    [abort_session] and [update_session] (given a title) each issue their
    one request on the resolved session -- DELETE [/session/id], POST
    [/session/id/abort], PATCH [/session/id] with the title as body -- and
    end with the result of the status check: nothing for a 2xx answer, an
    [HTTPStatusError] with the status code otherwise, the exception of the
    transport unchanged.  The client is the same before and after. *)
Theorem session_requests
        (w : World) (session_id title : option string) :
  truthy (resolved_id session_id w) = true ->
  let id := the_str (resolved_id session_id w) in
  (exists k,
      delete_session session_id w
      = Await (mkRequest DELETE ("/session/" ++ id) None) w k /\
      forall ans, k ans = Done (status_outcome ans) w) /\
  (exists k,
      abort_session session_id w
      = Await (mkRequest POST ("/session/" ++ id ++ "/abort") None) w k /\
      forall ans, k ans = Done (status_outcome ans) w) /\
  (truthy title = true ->
   exists k,
     update_session session_id title w
     = Await (mkRequest PATCH ("/session/" ++ id)
                (Some (JObj [("title", JStr (the_str title))]))) w k /\
     forall ans, k ans = Done (status_outcome ans) w).
Proof.
  intros H id. split; [|split].
  - apply delete_session_resolved, H.
  - apply abort_session_resolved, H.
  - intros Ht. now apply update_session_resolved.
Qed.

(** With the sample session current, an update without identifier patches
    that session; a 404 answer becomes an [HTTPStatusError]. *)
Lemma session_requests_witness :
  truthy (resolved_id None Sample.w1) = true /\
  run_with (fun _ => Return (mkResponse 404 None))
           (update_session None (Some "hello") Sample.w1)
  = (Raise (HTTPStatusError 404), Sample.w1,
     [mkRequest PATCH "/session/ses_1" (Some (JObj [("title", JStr "hello")]))]).
Proof.
  split; [reflexivity|].
  destruct (session_requests Sample.w1 None (Some "hello") eq_refl) as (_ & _ & Hu).
  destruct (Hu eq_refl) as (k & Hk & Hans).
  rewrite Hk. simpl. rewrite Hans. reflexivity.
Defined.

(** X2: an explicit, non-empty session identifier always wins over the
    current session: the four identifier-resolving operations address the
    session named in the call, whatever session is current.  For
    [send_message] this holds whatever the texts and files: when the parts
    are composed the message is posted to the named session, and when the
    composition fails no request is made at all. *)
Theorem explicit_session_id_wins
        (env : Env) (w : World) (sid : string) (title : string)
        (text : str_or_list) (file : option str_or_list)
        (system_message : option string) :
  str_truthy sid = true ->
  str_truthy title = true ->
  (exists k, delete_session (Some sid) w
             = Await (mkRequest DELETE ("/session/" ++ sid) None) w k) /\
  (exists k, abort_session (Some sid) w
             = Await (mkRequest POST ("/session/" ++ sid ++ "/abort") None) w k) /\
  (exists k, update_session (Some sid) (Some title) w
             = Await (mkRequest PATCH ("/session/" ++ sid)
                        (Some (JObj [("title", JStr title)]))) w k) /\
  match compose_parts env text file with
  | (ws, Return ps) =>
      let um := UserMessage.make (model (self w)) (model_provider (self w)) ps
                                 system_message in
      exists k,
        send_message env text file system_message (Some sid) w
        = Await (mkRequest POST ("/session/" ++ sid ++ "/message")
                   (Some (UserMessage.asdict um)))
                (sent_world w ws um) k
  | (ws, Raise e) =>
      send_message env text file system_message (Some sid) w
      = Done (Raise e) (mkWorld (self w) (warned w ++ ws))
  end.
Proof.
  intros Hs Ht.
  assert (Hr : resolved_id (Some sid) w = Some sid) by now apply resolved_id_explicit.
  assert (Hr' : truthy (resolved_id (Some sid) w) = true) by now rewrite Hr.
  split; [|split; [|split]].
  - destruct (delete_session_resolved (Some sid) w Hr') as (k & Hk & _).
    rewrite Hr in Hk. eauto.
  - destruct (abort_session_resolved (Some sid) w Hr') as (k & Hk & _).
    rewrite Hr in Hk. eauto.
  - destruct (update_session_resolved (Some sid) (Some title) w Ht Hr') as (k & Hk & _).
    rewrite Hr in Hk. eauto.
  - destruct (compose_parts env text file) as [ws [ps|e]] eqn:Hc.
    + destruct (send_message_sent env text file system_message (Some sid) w
                  ws ps Hr' Hc) as (k & Hk & _).
      rewrite Hr in Hk. exists k. exact Hk.
    + exact (send_message_aborted env text file system_message (Some sid) w
               ws e Hr' Hc).
Qed.

(** The sample client has [ses_1] current; deleting [ses_9] addresses
    [ses_9], and so does a message with a file. *)
Lemma explicit_session_id_wins_witness :
  current_session_id (self Sample.w1) = Some "ses_1" /\
  (exists k, delete_session (Some "ses_9") Sample.w1
             = Await (mkRequest DELETE "/session/ses_9" None) Sample.w1 k) /\
  exists req w1 k,
    send_message Sample.env (Str "hi") (Some (Str "notes.txt")) None (Some "ses_9")
                 Sample.w1
    = Await req w1 k /\
    url req = "/session/ses_9/message".
Proof.
  split; [reflexivity|].
  pose proof (explicit_session_id_wins Sample.env Sample.w1 "ses_9" "t"
                (Str "hi") (Some (Str "notes.txt")) None eq_refl eq_refl)
    as (Hd & _ & _ & Hs).
  split; [exact Hd|].
  destruct (compose_parts Sample.env (Str "hi") (Some (Str "notes.txt")))
    as [ws [ps|e]] eqn:Hc; [|discriminate Hc].
  destruct Hs as (k & Hk). do 3 eexists. split; [exact Hk | reflexivity].
Defined.

(* ------------------------------------------------------------------ *)
(** ** Further properties: what the operations leave untouched *)

Lemma stays_world {A} (w : World) (r : Run A) (srv : transport) :
  stays w r -> world_of (run_with srv r) = w.
Proof.
  destruct r as [res w'|req w' k]; simpl.
  - intros ->. reflexivity.
  - intros (-> & Hk). destruct (Hk (srv req)) as (res & ->). reflexivity.
Qed.

Lemma stays_one_shot {A} (w : World) (r : Run A) : stays w r -> one_shot r.
Proof.
  destruct r as [res w'|req w' k]; simpl; [trivial|].
  intros (_ & Hk) ans. destruct (Hk ans) as (res & ->). eauto.
Qed.

Lemma one_shot_requests {A} (r : Run A) (srv : transport) :
  one_shot r -> length (snd (run_with srv r)) <= 1.
Proof.
  destruct r as [res w|req w k]; simpl.
  - intros _. apply Nat.le_0_l.
  - intros Hk. destruct (Hk (srv req)) as (res & w' & ->). simpl. apply Nat.le_refl.
Qed.

Lemma delete_session_stays (sid : option string) (w : World) :
  stays w (delete_session sid w).
Proof.
  destruct (truthy (resolved_id sid w)) eqn:H.
  - destruct (delete_session_resolved sid w H) as (k & -> & Hk).
    split; [reflexivity|]. intros ans. rewrite Hk. eauto.
  - rewrite delete_session_unresolved by exact H. reflexivity.
Qed.

Lemma abort_session_stays (sid : option string) (w : World) :
  stays w (abort_session sid w).
Proof.
  destruct (truthy (resolved_id sid w)) eqn:H.
  - destruct (abort_session_resolved sid w H) as (k & -> & Hk).
    split; [reflexivity|]. intros ans. rewrite Hk. eauto.
  - rewrite abort_session_unresolved by exact H. reflexivity.
Qed.

Lemma update_session_stays (sid title : option string) (w : World) :
  stays w (update_session sid title w).
Proof.
  destruct (truthy title) eqn:Ht.
  - destruct (truthy (resolved_id sid w)) eqn:H.
    + destruct (update_session_resolved sid title w Ht H) as (k & -> & Hk).
      split; [reflexivity|]. intros ans. rewrite Hk. eauto.
    + rewrite update_session_unresolved by assumption. reflexivity.
  - rewrite update_session_no_title by exact Ht. reflexivity.
Qed.

Lemma list_sessions_stays (w : World) : stays w (list_sessions w).
Proof.
  destruct (list_sessions_world w) as (k & -> & Hk). split; [reflexivity | exact Hk].
Qed.

Lemma perform_file_operation_stays
      (operation : FileOperation) (query : option string) (w : World) :
  stays w (_perform_file_operation operation query w).
Proof.
  unfold _perform_file_operation.
  destruct (negb (truthy query) && negb (is_get_status operation));
    [reflexivity|].
  destruct operation; (split; [reflexivity|]);
    intros [res|e]; (try (simpl; eauto; fail));
    unfold bind, raise_for_status, res_json, lift, ret, raise; simpl;
    (destruct (is_success res); simpl; [|eauto]);
    (destruct (body res) as [payload|]; simpl; [|eauto]).
  - destruct (ReadFile.from_json payload); simpl; eauto.
  - destruct (py_iter payload) as [items|e]; simpl; [|eauto].
    destruct (decode_each File.from_json items []); simpl; eauto.
  - destruct (py_iter payload) as [items|e]; simpl; [|eauto].
    destruct (decode_each Match.from_json items []); simpl; eauto.
  - eauto.
Qed.

(** X3: no operation other than [create_current_session] and
    [send_message] ever changes the client: after [delete_session],
    [abort_session], [update_session] and the four file operations the
    client and the warnings are what they were, whatever the arguments and
    whatever the server answers.  A deleted session thus stays the current
    session, and an updated title is not written into the stored session. *)
Theorem operations_leave_client_unchanged
        (w : World) (srv : transport) (session_id title : option string)
        (query : string) :
  world_of (run_with srv (delete_session session_id w)) = w /\
  world_of (run_with srv (abort_session session_id w)) = w /\
  world_of (run_with srv (update_session session_id title w)) = w /\
  world_of (run_with srv (read_file query w)) = w /\
  world_of (run_with srv (search_file_by_name query w)) = w /\
  world_of (run_with srv (search_file_by_text query w)) = w /\
  world_of (run_with srv (get_files_status w)) = w.
Proof.
  repeat split; apply stays_world;
    first [ apply delete_session_stays | apply abort_session_stays
          | apply update_session_stays | apply perform_file_operation_stays ].
Qed.

(* ------------------------------------------------------------------ *)
(** ** Further properties: decoding a session *)

Lemma kw_known_In (fields : list string) (kw : list (string * json))
      (k : string) (v : json) :
  kw_known fields kw = true -> In (k, v) kw -> In k fields.
Proof.
  unfold kw_known. rewrite forallb_forall. intros H Hin.
  specialize (H (k, v) Hin). simpl in H.
  apply existsb_exists in H. destruct H as (k' & Hk' & Heq).
  apply String.eqb_eq in Heq. now subst.
Qed.

Lemma Session_from_json_Return (kw : list (string * json)) (s : Session.t) :
  Session.from_json (JObj kw) = Return s ->
  kw_known Session.fields kw = true /\
  kw_lookup "id" kw = Some (JStr (Session.id s)) /\
  kw_lookup "title" kw = Some (Session.title s) /\
  kw_lookup "version" kw = Some (Session.version s) /\
  kw_lookup "projectID" kw = Some (Session.projectID s) /\
  kw_lookup "directory" kw = Some (Session.directory s) /\
  kw_lookup "time" kw = Some (Session.time s) /\
  Session.parentID s = match kw_lookup "parentID" kw with
                       | Some v => v
                       | None => JStr ""
                       end.
Proof.
  unfold Session.from_json.
  destruct (kw_known Session.fields kw); simpl; [|discriminate].
  destruct (kw_lookup "id" kw) as [[]|]; try discriminate;
    destruct (kw_lookup "title" kw); try discriminate;
    destruct (kw_lookup "version" kw); try discriminate;
    destruct (kw_lookup "projectID" kw); try discriminate;
    destruct (kw_lookup "directory" kw); try discriminate;
    destruct (kw_lookup "time" kw); try discriminate.
  intros H. inversion H; subst. simpl. repeat split; reflexivity.
Qed.

Lemma Session_from_json_complete
      (kw : list (string * json)) (i : string) (ti v p d tm : json) :
  kw_known Session.fields kw = true ->
  kw_lookup "id" kw = Some (JStr i) ->
  kw_lookup "title" kw = Some ti ->
  kw_lookup "version" kw = Some v ->
  kw_lookup "projectID" kw = Some p ->
  kw_lookup "directory" kw = Some d ->
  kw_lookup "time" kw = Some tm ->
  Session.from_json (JObj kw)
  = Return (Session.mk i ti v p d tm
              (match kw_lookup "parentID" kw with
               | Some pa => pa
               | None => JStr ""
               end)).
Proof.
  intros Hk H1 H2 H3 H4 H5 H6. unfold Session.from_json.
  rewrite Hk, H1, H2, H3, H4, H5, H6. reflexivity.
Qed.

Lemma Session_refused (payload : json) :
  constructor_accepts Session.fields Session.required payload = false ->
  exists msg, Session.from_json payload = Raise (TypeError msg).
Proof.
  unfold constructor_accepts, Session.from_json.
  destruct payload as [| | | | | |kw]; try (intros _; eauto; fail).
  destruct (kw_known Session.fields kw); simpl; [|eauto].
  unfold has_key.
  destruct (kw_lookup "id" kw) as [[]|]; simpl; eauto;
    destruct (kw_lookup "title" kw); simpl; eauto;
    destruct (kw_lookup "version" kw); simpl; eauto;
    destruct (kw_lookup "projectID" kw); simpl; eauto;
    destruct (kw_lookup "directory" kw); simpl; eauto;
    destruct (kw_lookup "time" kw); simpl; eauto; discriminate.
Qed.

Lemma constructor_refuses_unknown
      (fields required : list string) (kw : list (string * json))
      (k : string) (v : json) :
  In (k, v) kw -> ~ In k fields ->
  constructor_accepts fields required (JObj kw) = false.
Proof.
  intros Hin Hk. simpl.
  destruct (kw_known fields kw) eqn:H; [|reflexivity].
  exfalso. apply Hk. exact (kw_known_In fields kw k v H Hin).
Qed.

Lemma constructor_refuses_missing
      (fields required : list string) (kw : list (string * json)) (k : string) :
  In k required -> kw_lookup k kw = None ->
  constructor_accepts fields required (JObj kw) = false.
Proof.
  intros Hin Hn. simpl. apply andb_false_iff. right.
  destruct (forallb (has_key kw) required) eqn:H; [|reflexivity].
  rewrite forallb_forall in H. specialize (H k Hin).
  unfold has_key in H. now rewrite Hn in H.
Qed.

(** X17: a session is decoded strictly and without loss.  A body with a
    key that is not a field of [Session], or without one of the six fields
    that have no default, is refused with a [TypeError]; a decoded session
    carries, field by field, the values of the body, [parentID] being the
    empty string when the body has none; and a body with known keys only,
    a string as [id] and the other five required fields decodes to that
    session. *)
Theorem session_decoding_is_strict (kw : list (string * json)) :
  (forall k v, In (k, v) kw -> ~ In k Session.fields ->
               exists msg, Session.from_json (JObj kw) = Raise (TypeError msg)) /\
  (forall k, In k ["id"; "title"; "version"; "projectID"; "directory"; "time"] ->
             kw_lookup k kw = None ->
             exists msg, Session.from_json (JObj kw) = Raise (TypeError msg)) /\
  (forall s, Session.from_json (JObj kw) = Return s ->
             kw_lookup "id" kw = Some (JStr (Session.id s)) /\
             kw_lookup "title" kw = Some (Session.title s) /\
             kw_lookup "version" kw = Some (Session.version s) /\
             kw_lookup "projectID" kw = Some (Session.projectID s) /\
             kw_lookup "directory" kw = Some (Session.directory s) /\
             kw_lookup "time" kw = Some (Session.time s) /\
             Session.parentID s = match kw_lookup "parentID" kw with
                                  | Some v => v
                                  | None => JStr ""
                                  end) /\
  (forall i ti v p d tm,
      kw_known Session.fields kw = true ->
      kw_lookup "id" kw = Some (JStr i) ->
      kw_lookup "title" kw = Some ti ->
      kw_lookup "version" kw = Some v ->
      kw_lookup "projectID" kw = Some p ->
      kw_lookup "directory" kw = Some d ->
      kw_lookup "time" kw = Some tm ->
      Session.from_json (JObj kw)
      = Return (Session.mk i ti v p d tm
                  (match kw_lookup "parentID" kw with
                   | Some pa => pa
                   | None => JStr ""
                   end))).
Proof.
  split; [|split; [|split]].
  - intros k v Hin Hk. apply Session_refused.
    exact (constructor_refuses_unknown _ _ kw k v Hin Hk).
  - intros k Hk Hn. apply Session_refused.
    exact (constructor_refuses_missing _ _ kw k Hk Hn).
  - intros s H. apply (Session_from_json_Return kw s H).
  - apply Session_from_json_complete.
Qed.

(** The body of the sample session with one more key is refused; without
    [parentID] it decodes, with the empty string as parent. *)
Lemma session_decoding_is_strict_witness :
  (exists msg,
      Session.from_json
        (JObj [("id", JStr "ses_1"); ("title", JStr "test"); ("version", JStr "0.1");
               ("projectID", JStr "proj"); ("directory", JStr "/work");
               ("time", JObj []); ("share", JNull)])
      = Raise (TypeError msg)) /\
  Session.from_json
    (JObj [("id", JStr "ses_1"); ("title", JStr "test"); ("version", JStr "0.1");
           ("projectID", JStr "proj"); ("directory", JStr "/work");
           ("time", JObj [])])
  = Return (Session.mk "ses_1" (JStr "test") (JStr "0.1") (JStr "proj")
                       (JStr "/work") (JObj []) (JStr "")).
Proof.
  split.
  - refine (proj1 (session_decoding_is_strict _) "share" JNull _ _).
    + simpl. tauto.
    + simpl. intros [H|[H|[H|[H|[H|[H|[H|[]]]]]]]]; discriminate H.
  - exact (proj2 (proj2 (proj2 (session_decoding_is_strict
                 [("id", JStr "ses_1"); ("title", JStr "test"); ("version", JStr "0.1");
                  ("projectID", JStr "proj"); ("directory", JStr "/work");
                  ("time", JObj [])])))
                 "ses_1" (JStr "test") (JStr "0.1") (JStr "proj") (JStr "/work")
                 (JObj []) eq_refl eq_refl eq_refl eq_refl eq_refl eq_refl eq_refl).
Defined.

Lemma create_current_session_run (w : World) (title parent_id : option string) :
  exists k,
    create_current_session title parent_id w
    = Await (create_request title parent_id) w k /\
    forall ans,
      k ans =
      match body_outcome ans with
      | Raise e => Done (Raise e) w
      | Return payload =>
          match Session.from_json payload with
          | Return s => Done (Return s) (with_current w s)
          | Raise e => Done (Raise e) w
          end
      end.
Proof.
  eexists. split; [reflexivity|].
  intros [res|e]; [|reflexivity].
  unfold bind, raise_for_status, res_json, lift, ret, raise, body_outcome. simpl.
  destruct (is_success res); simpl; [|reflexivity].
  destruct (body res) as [payload|]; simpl; [|reflexivity].
  destruct (Session.from_json payload); reflexivity.
Qed.

Lemma send_message_one_shot
      (env : Env) (text : str_or_list) (file : option str_or_list)
      (system_message session_id : option string) (w : World) :
  one_shot (send_message env text file system_message session_id w).
Proof.
  destruct (truthy (resolved_id session_id w)) eqn:Hr.
  - destruct (compose_parts env text file) as [ws [ps|e]] eqn:Hc.
    + destruct (send_message_sent env text file system_message session_id w ws ps Hr Hc)
        as (k & -> & Hk).
      intros ans. rewrite Hk. unfold finish_send.
      destruct ans as [res|e]; [|eauto].
      destruct (is_success res); [|eauto].
      destruct (body res) as [payload|]; [|eauto].
      destruct (AssistantMessage.from_json payload); eauto.
    + rewrite (send_message_aborted env text file system_message session_id w ws e Hr Hc).
      exact I.
  - rewrite (send_message_unresolved env text file system_message session_id w Hr).
    exact I.
Qed.

(** X4: every operation of the client makes at most one HTTP request per
    call, whatever its arguments and whatever the server answers: nothing
    is retried and no second call follows the first. *)
Theorem at_most_one_request
        (env : Env) (w : World) (srv : transport)
        (session_id title parent_id system_message : option string)
        (text : str_or_list) (file : option str_or_list) (query : string) :
  length (snd (run_with srv (create_current_session title parent_id w))) <= 1 /\
  length (snd (run_with srv (list_sessions w))) <= 1 /\
  length (snd (run_with srv (delete_session session_id w))) <= 1 /\
  length (snd (run_with srv (update_session session_id title w))) <= 1 /\
  length (snd (run_with srv (abort_session session_id w))) <= 1 /\
  length (snd (run_with srv
            (send_message env text file system_message session_id w))) <= 1 /\
  length (snd (run_with srv (read_file query w))) <= 1 /\
  length (snd (run_with srv (search_file_by_name query w))) <= 1 /\
  length (snd (run_with srv (search_file_by_text query w))) <= 1 /\
  length (snd (run_with srv (get_files_status w))) <= 1.
Proof.
  repeat split; apply one_shot_requests;
    try (apply (stays_one_shot w);
         first [ apply delete_session_stays | apply abort_session_stays
               | apply update_session_stays | apply list_sessions_stays
               | apply perform_file_operation_stays ]).
  - destruct (create_current_session_run w title parent_id) as (k & -> & Hk).
    intros ans. rewrite Hk.
    destruct (body_outcome ans) as [payload|e]; [|eauto].
    destruct (Session.from_json payload); eauto.
  - apply send_message_one_shot.
Qed.

(** X5: [create_current_session] changes the client only when it
    succeeds, and then only the current session.  Every failure is raised
    to the caller and leaves the previous current session in place: the
    exception of the transport, an [HTTPStatusError] for a status that is
    not 2xx, a [JSONDecodeError] for a body that is not JSON, a [TypeError]
    for a body that the constructor of [Session] refuses (not an object, an
    unknown key, a required field missing). *)
Theorem create_session_failure_keeps_current
        (w : World) (srv : transport) (title parent_id : option string) :
  let req := create_request title parent_id in
  let run := run_with srv (create_current_session title parent_id w) in
  (forall e, srv req = Raise e -> run = (Raise e, w, [req])) /\
  (forall res,
      srv req = Return res -> is_success res = false ->
      run = (Raise (HTTPStatusError (status_code res)), w, [req])) /\
  (forall res,
      srv req = Return res -> is_success res = true -> body res = None ->
      exists msg, run = (Raise (JSONDecodeError msg), w, [req])) /\
  (forall res payload,
      srv req = Return res -> is_success res = true -> body res = Some payload ->
      constructor_accepts Session.fields Session.required payload = false ->
      exists msg, run = (Raise (TypeError msg), w, [req])) /\
  match run with
  | (Return s, w', _) => w' = with_current w s
  | (Raise _, w', _) => w' = w
  end.
Proof.
  intros req run.
  assert (Hrun : run =
                 match body_outcome (srv req) with
                 | Raise e => (Raise e, w, [req])
                 | Return payload =>
                     match Session.from_json payload with
                     | Return s => (Return s, with_current w s, [req])
                     | Raise e => (Raise e, w, [req])
                     end
                 end).
  { subst run.
    destruct (create_current_session_run w title parent_id) as (k & -> & Hk).
    fold req. simpl. rewrite Hk.
    destruct (body_outcome (srv req)) as [payload|e]; [|reflexivity].
    destruct (Session.from_json payload); reflexivity. }
  rewrite Hrun. unfold body_outcome.
  split; [|split; [|split; [|split]]].
  - intros e He. rewrite He. reflexivity.
  - intros res He Hs. rewrite He, Hs. reflexivity.
  - intros res He Hs Hb. rewrite He, Hs, Hb. eauto.
  - intros res payload He Hs Hb Hr. rewrite He, Hs, Hb.
    destruct (Session_refused payload Hr) as (msg & Hmsg). rewrite Hmsg. eauto.
  - destruct (srv req) as [res|e]; [|reflexivity].
    destruct (is_success res); [|reflexivity].
    destruct (body res) as [payload|]; [|reflexivity].
    destruct (Session.from_json payload); reflexivity.
Qed.

(** With the server down, creation fails and [ses_1] stays current; an
    answer that is a JSON array is refused. *)
Lemma create_session_failure_keeps_current_witness :
  run_with Sample.down (create_current_session (Some "t") None Sample.w1)
  = (Raise (TransportError "connection refused"), Sample.w1,
     [create_request (Some "t") None]) /\
  exists msg,
    run_with (fun _ => Return (mkResponse 200 (Some (JArr []))))
             (create_current_session (Some "t") None Sample.w1)
    = (Raise (TypeError msg), Sample.w1, [create_request (Some "t") None]).
Proof.
  split.
  - exact (proj1 (create_session_failure_keeps_current
                    Sample.w1 Sample.down (Some "t") None)
                 (TransportError "connection refused") eq_refl).
  - exact (proj1 (proj2 (proj2 (proj2 (create_session_failure_keeps_current
                    Sample.w1 (fun _ => Return (mkResponse 200 (Some (JArr []))))
                    (Some "t") None))))
                 (mkResponse 200 (Some (JArr []))) (JArr [])
                 eq_refl eq_refl eq_refl eq_refl).
Defined.

(* ------------------------------------------------------------------ *)
(** ** Further properties: listing and decoding *)

Lemma decode_each_acc {A} (decode : json -> outcome A) (items : list json) :
  forall acc,
    decode_each decode items acc =
    match decode_each decode items [] with
    | Return l => Return (acc ++ l)
    | Raise e => Raise e
    end.
Proof.
  induction items as [|x items IH]; intros acc; simpl.
  - now rewrite app_nil_r.
  - destruct (decode x) as [a|e]; [|reflexivity].
    rewrite IH, (IH [a]).
    destruct (decode_each decode items []); [|reflexivity].
    now rewrite <- app_assoc.
Qed.

Lemma decode_each_decodes {A} (decode : json -> outcome A) (items : list json)
      (decoded : list A) :
  decodes_to decode items decoded ->
  decode_each decode items [] = Return decoded.
Proof.
  induction 1 as [|x a items decoded Hx _ IH]; simpl; [reflexivity|].
  rewrite Hx, decode_each_acc, IH. reflexivity.
Qed.

Lemma decode_each_first_failure {A} (decode : json -> outcome A)
      (done : list json) (x : json) (rest : list json) (e : exn) :
  Forall (fun y => is_Return (decode y) = true) done ->
  decode x = Raise e ->
  decode_each decode (done ++ x :: rest) [] = Raise e.
Proof.
  induction 1 as [|y done Hy _ IH]; intros Hx; simpl.
  - now rewrite Hx.
  - destruct (decode y) as [a|e']; [|discriminate].
    rewrite decode_each_acc, IH by exact Hx. reflexivity.
Qed.

Lemma list_sessions_run (w : World) (srv : transport) :
  run_with srv (list_sessions w) =
  (match body_outcome (srv list_request) with
   | Raise e => Raise e
   | Return payload =>
       match py_iter payload with
       | Return items => decode_each Session.from_json items []
       | Raise e => Raise e
       end
   end, w, [list_request]).
Proof.
  unfold list_sessions, bind, client_get, http. simpl. fold list_request.
  destruct (srv list_request) as [res|e]; [|reflexivity].
  unfold raise_for_status, res_json, lift, ret, raise, body_outcome. simpl.
  destruct (is_success res); simpl; [|reflexivity].
  destruct (body res) as [payload|]; simpl; [|reflexivity].
  destruct (py_iter payload) as [items|e]; simpl; [|reflexivity].
  destruct (decode_each Session.from_json items []); reflexivity.
Qed.

(** X6: when the server answers the listing with a JSON array,
    [list_sessions] returns one session per element, in the order of the
    array, provided every element decodes.  When the elements before some
    element decode and that element is one the constructor of [Session]
    refuses (it is not an object, has an unknown key or lacks a required
    field), the call raises a [TypeError] and returns no partial list. *)
Theorem list_sessions_all_or_nothing
        (w : World) (srv : transport) (res : response) (items : list json) :
  srv list_request = Return res ->
  is_success res = true ->
  body res = Some (JArr items) ->
  (forall sessions,
      decodes_to Session.from_json items sessions ->
      run_with srv (list_sessions w) = (Return sessions, w, [list_request]) /\
      length sessions = length items) /\
  (forall done x rest,
      items = done ++ x :: rest ->
      Forall (fun y => is_Return (Session.from_json y) = true) done ->
      constructor_accepts Session.fields Session.required x = false ->
      exists msg,
        run_with srv (list_sessions w) = (Raise (TypeError msg), w, [list_request])).
Proof.
  intros Hs Hok Hb.
  assert (Hbody : body_outcome (srv list_request) = Return (JArr items)).
  { rewrite Hs. unfold body_outcome. now rewrite Hok, Hb. }
  split.
  - intros sessions Hd. split.
    + rewrite list_sessions_run, Hbody. simpl.
      now rewrite (decode_each_decodes _ _ _ Hd).
    + symmetry. exact (Forall2_length Hd).
  - intros done x rest -> Hdone Hx.
    destruct (Session_refused x Hx) as (msg & Hmsg). exists msg.
    rewrite list_sessions_run, Hbody. simpl.
    now rewrite (decode_each_first_failure _ _ _ _ _ Hdone Hmsg).
Qed.

(** Against the sample server the two sessions come back in order; a
    listing whose second element has no [title] gives no session at all. *)
Lemma list_sessions_all_or_nothing_witness :
  run_with Sample.server (list_sessions Sample.w1)
  = (Return [Sample.session1; Sample.session2], Sample.w1, [list_request]) /\
  exists msg,
    run_with (fun _ => Return (mkResponse 200
                (Some (JArr [Sample.session_json Sample.session1;
                             JObj [("id", JStr "ses_2")]]))))
             (list_sessions Sample.w1)
    = (Raise (TypeError msg), Sample.w1, [list_request]).
Proof.
  split.
  - refine (proj1 (proj1 (list_sessions_all_or_nothing
              Sample.w1 Sample.server
              (mkResponse 200 (Some (JArr [Sample.session_json Sample.session1;
                                           Sample.session_json Sample.session2])))
              _ eq_refl eq_refl eq_refl) _ _)).
    repeat constructor.
  - refine (proj2 (list_sessions_all_or_nothing
              Sample.w1 _
              (mkResponse 200 (Some (JArr [Sample.session_json Sample.session1;
                                           JObj [("id", JStr "ses_2")]])))
              _ eq_refl eq_refl eq_refl)
              [Sample.session_json Sample.session1] (JObj [("id", JStr "ses_2")]) []
              eq_refl _ eq_refl).
    repeat constructor.
Defined.

(** X7: a successful answer whose body is not a JSON array is iterated as
    Python iterates it: an empty object and an empty string give the empty
    list of sessions, a non-empty object or string fails with a [TypeError]
    when its first key or character is unpacked, and null, a boolean or a
    number fails with a [TypeError] because it is not iterable. *)
Theorem list_sessions_body_not_a_list
        (w : World) (srv : transport) (res : response) (payload : json) :
  srv list_request = Return res ->
  is_success res = true ->
  body res = Some payload ->
  match payload with
  | JArr _ => True
  | JObj [] | JStr EmptyString =>
      run_with srv (list_sessions w) = (Return [], w, [list_request])
  | JObj (_ :: _) | JStr (String _ _) | JNull | JBool _ | JInt _ | JFloat _ =>
      exists msg,
        run_with srv (list_sessions w) = (Raise (TypeError msg), w, [list_request])
  end.
Proof.
  intros Hs Hok Hb.
  assert (Hbody : body_outcome (srv list_request) = Return payload).
  { rewrite Hs. unfold body_outcome. now rewrite Hok, Hb. }
  rewrite list_sessions_run, Hbody.
  destruct payload as [| | | |[|c s]|items|[|[k v] members]]; simpl; eauto.
Qed.

(** A server that answers the listing with an empty object. *)
Lemma list_sessions_body_not_a_list_witness :
  run_with (fun _ => Return (mkResponse 200 (Some (JObj [])))) (list_sessions Sample.w0)
  = (Return [], Sample.w0, [list_request]).
Proof.
  exact (list_sessions_body_not_a_list
           Sample.w0 (fun _ => Return (mkResponse 200 (Some (JObj []))))
           (mkResponse 200 (Some (JObj []))) (JObj []) eq_refl eq_refl eq_refl).
Defined.

(* ------------------------------------------------------------------ *)
(** ** Further properties: sequences of operations *)

Lemma run_with_bind {A B} (srv : transport) (r : Run A) (f : A -> M B) :
  run_with srv (bind_run r f) =
  match run_with srv r with
  | (Return a, w', reqs) =>
      let '(res, w2, reqs2) := run_with srv (f a w') in (res, w2, reqs ++ reqs2)
  | (Raise e, w', reqs) => (Raise e, w', reqs)
  end.
Proof.
  induction r as [res w|req w k IH]; simpl.
  - destruct res as [a|e]; [|reflexivity].
    destruct (run_with srv (f a w)) as [[res w2] reqs2]. reflexivity.
  - rewrite IH.
    destruct (run_with srv (k (srv req))) as [[[a|e] w'] reqs]; [|reflexivity].
    destruct (run_with srv (f a w')) as [[res w2] reqs2]. reflexivity.
Qed.

Lemma delete_session_run (sid : option string) (w : World) (srv : transport) :
  truthy (resolved_id sid w) = true ->
  run_with srv (delete_session sid w) =
  (status_outcome (srv (delete_request (the_str (resolved_id sid w)))), w,
   [delete_request (the_str (resolved_id sid w))]).
Proof.
  intros H. destruct (delete_session_resolved sid w H) as (k & -> & Hk).
  simpl. rewrite Hk. reflexivity.
Qed.

Lemma create_current_session_success
      (w : World) (srv : transport) (title parent_id : option string)
      (res : response) (payload : json) (s : Session.t) :
  srv (create_request title parent_id) = Return res ->
  is_success res = true ->
  body res = Some payload ->
  Session.from_json payload = Return s ->
  run_with srv (create_current_session title parent_id w)
  = (Return s, with_current w s, [create_request title parent_id]).
Proof.
  intros Hs Hok Hb Hd.
  unfold create_current_session, bind, client_post, http. simpl.
  fold (create_request title parent_id). rewrite Hs.
  unfold raise_for_status, res_json, lift, ret. simpl.
  rewrite Hok. simpl. rewrite Hb. simpl. rewrite Hd. reflexivity.
Qed.

(** X8: deleting the current session does not clear it.  After a
    successful [create_current_session], [delete_session] without argument
    deletes the new session, and a second [delete_session] without argument
    sends the same DELETE again, for the session that was just deleted: the
    client still holds it as current. *)
Theorem deleted_session_stays_current
        (w : World) (srv : transport) (title parent_id : option string)
        (res del : response) (payload : json) (s : Session.t) :
  srv (create_request title parent_id) = Return res ->
  is_success res = true ->
  body res = Some payload ->
  Session.from_json payload = Return s ->
  str_truthy (Session.id s) = true ->
  srv (delete_request (Session.id s)) = Return del ->
  is_success del = true ->
  run_with srv
    ((create_current_session title parent_id;;
      delete_session None;;
      delete_session None) w)
  = (Return tt, with_current w s,
     [create_request title parent_id;
      delete_request (Session.id s); delete_request (Session.id s)]) /\
  _current_session (self (with_current w s)) = Some s.
Proof.
  intros Hs Hok Hb Hd Hid Hdel Hdok. split; [|reflexivity].
  assert (Hr : resolved_id None (with_current w s) = Some (Session.id s))
    by reflexivity.
  assert (Hone : run_with srv (delete_session None (with_current w s))
                 = (Return tt, with_current w s, [delete_request (Session.id s)])).
  { rewrite delete_session_run by (rewrite Hr; exact Hid).
    rewrite Hr. simpl. rewrite Hdel. simpl. now rewrite Hdok. }
  unfold bind at 1. rewrite run_with_bind.
  rewrite (create_current_session_success w srv title parent_id res payload s)
    by assumption.
  unfold bind. rewrite run_with_bind, Hone, Hone. reflexivity.
Qed.

(** The sample server creates [ses_2]; both deletions address it. *)
Lemma deleted_session_stays_current_witness :
  run_with Sample.server
    ((create_current_session (Some "test") None;;
      delete_session None;;
      delete_session None) Sample.w0)
  = (Return tt, with_current Sample.w0 Sample.session2,
     [create_request (Some "test") None;
      delete_request "ses_2"; delete_request "ses_2"]).
Proof.
  exact (proj1 (deleted_session_stays_current
                  Sample.w0 Sample.server (Some "test") None
                  (mkResponse 200 (Some (Sample.session_json Sample.session2)))
                  (mkResponse 200 None)
                  (Sample.session_json Sample.session2) Sample.session2
                  eq_refl eq_refl eq_refl eq_refl eq_refl eq_refl eq_refl)).
Defined.

Lemma delete_each_run (w : World) (srv : transport) (sessions : list Session.t) :
  Forall (fun s => str_truthy (Session.id s) = true) sessions ->
  (forall s, In s sessions ->
             exists del, srv (delete_request (Session.id s)) = Return del /\
                         is_success del = true) ->
  run_with srv (delete_each sessions w)
  = (Return tt, w, map (fun s => delete_request (Session.id s)) sessions).
Proof.
  induction 1 as [|s sessions Hid _ IH]; intros Hdel; simpl; [reflexivity|].
  unfold bind. rewrite run_with_bind.
  assert (Hr : resolved_id (Some (Session.id s)) w = Some (Session.id s))
    by now apply resolved_id_explicit.
  rewrite delete_session_run by (rewrite Hr; exact Hid).
  rewrite Hr. simpl.
  destruct (Hdel s (or_introl eq_refl)) as (del & -> & Hok). simpl. rewrite Hok.
  rewrite IH by (intros s' Hs'; apply Hdel; now right). reflexivity.
Qed.

(** X9: the cleanup helper of the tests lists the sessions and deletes
    each of them by its identifier, in the order of the listing: when the
    listing decodes to sessions with non-empty identifiers and the server
    accepts every deletion, it makes one GET followed by one DELETE per
    session and leaves the client as it was, current session included. *)
Theorem apply_cleanup_requests
        (w : World) (srv : transport) (res : response) (items : list json)
        (sessions : list Session.t) :
  srv list_request = Return res ->
  is_success res = true ->
  body res = Some (JArr items) ->
  decodes_to Session.from_json items sessions ->
  Forall (fun s => str_truthy (Session.id s) = true) sessions ->
  (forall s, In s sessions ->
             exists del, srv (delete_request (Session.id s)) = Return del /\
                         is_success del = true) ->
  run_with srv (apply_cleanup w)
  = (Return tt, w,
     list_request :: map (fun s => delete_request (Session.id s)) sessions).
Proof.
  intros Hs Hok Hb Hd Hids Hdel.
  unfold apply_cleanup, bind. rewrite run_with_bind, list_sessions_run.
  rewrite Hs. unfold body_outcome. rewrite Hok, Hb. simpl.
  rewrite (decode_each_decodes _ _ _ Hd).
  rewrite delete_each_run by assumption. reflexivity.
Qed.

(** The cleanup against the sample server: one listing, two deletions. *)
Lemma apply_cleanup_requests_witness :
  run_with Sample.server (apply_cleanup Sample.w1)
  = (Return tt, Sample.w1,
     [list_request; delete_request "ses_1"; delete_request "ses_2"]).
Proof.
  refine (apply_cleanup_requests
            Sample.w1 Sample.server
            (mkResponse 200 (Some (JArr [Sample.session_json Sample.session1;
                                         Sample.session_json Sample.session2])))
            _ [Sample.session1; Sample.session2] eq_refl eq_refl eq_refl _ _ _).
  - repeat constructor.
  - repeat constructor.
  - intros s [<-|[<-|[]]]; exists (mkResponse 200 None); split; reflexivity.
Defined.

(* ------------------------------------------------------------------ *)
(** ** Further properties: the construction of file parts *)

Lemma prefix_app (p rest : string) : String.prefix p (p ++ rest) = true.
Proof.
  induction p as [|c p IH]; simpl.
  - now destruct rest.
  - destruct (Ascii.ascii_dec c c) as [_|Hn]; [exact IH | now contradiction Hn].
Qed.

Lemma is_remote_prefixed (p rest : string) :
  In p remote_prefixes -> is_remote (p ++ rest) = true.
Proof.
  intros Hin. unfold is_remote, startswith_any.
  apply existsb_exists. exists p. split; [exact Hin | apply prefix_app].
Qed.

(** X10: a file input that starts with one of the four remote prefixes,
    [file://] included, is never looked up: it becomes a [FilePart] as soon
    as a MIME type is guessed from its name, whatever that type is and
    whatever exists at that place.  The part carries the input as its URL,
    with no filename and no embedded source, and the outcome depends on the
    MIME table only, not on the file system. *)
Theorem remote_inputs_are_not_checked
        (env : Env) (p rest : string) (parts : list Part) :
  In p remote_prefixes ->
  (forall m,
      _raw_guess_mimetypes env (p ++ rest) = Some m ->
      str_truthy m = true ->
      attach_file env (p ++ rest) parts
      = ([], Return (parts ++ [PFile (FilePart.mk m (p ++ rest) "file" "" "" None)]))) /\
  (forall env',
      same_mimetypes env env' ->
      attach_file env' (p ++ rest) parts = attach_file env (p ++ rest) parts).
Proof.
  intros Hin. pose proof (is_remote_prefixed p rest Hin) as Hr. split.
  - intros m Hm Hne. unfold attach_file, FilePart.from_url.
    rewrite Hr, Hm. simpl. now rewrite Hne.
  - intros env' Hsame. unfold attach_file, FilePart.from_url, _raw_guess_mimetypes.
    now rewrite Hr, Hsame.
Qed.

(** A [file://] URL of an image that does not exist is attached. *)
Lemma remote_inputs_are_not_checked_witness :
  os_path_exists Sample.env "/nowhere/shot.png" = false /\
  attach_file Sample.env "file:///nowhere/shot.png" []
  = ([], Return [PFile (FilePart.mk "image/png" "file:///nowhere/shot.png"
                          "file" "" "" None)]).
Proof.
  split; [reflexivity|].
  exact (proj1 (remote_inputs_are_not_checked
                  Sample.env "file://" "/nowhere/shot.png" []
                  (or_intror (or_intror (or_intror (or_introl eq_refl)))))
               "image/png" eq_refl eq_refl).
Defined.

(** X11: [FilePart.from_file] opens the file last: when the path is not
    an existing regular file, or no MIME type beginning with [text/] is
    guessed for it, the result does not depend on the content of the file
    or on whether it can be read. *)
Theorem from_file_opens_last
        (env : Env) (file : string) (read' : string -> outcome string) :
  ~ (regular_file env file = true /\
     exists m, guessed_type env file = Some m /\ String.prefix "text/" m = true) ->
  FilePart.from_file (with_open_read env read') file = FilePart.from_file env file.
Proof.
  intros Hn. unfold FilePart.from_file, with_open_read. simpl.
  fold (regular_file env file).
  unfold _raw_guess_mimetypes. simpl.
  fold (_raw_guess_mimetypes env (Path_resolve env file)).
  fold (guessed_type env file).
  destruct (regular_file env file) eqn:Hx; [|reflexivity].
  destruct (guessed_type env file) as [m|] eqn:Hm; [|reflexivity].
  simpl. destruct (str_truthy m); [|reflexivity]. simpl.
  destruct (String.prefix "text/" m) eqn:Hp; [|reflexivity].
  exfalso. apply Hn. eauto.
Qed.

(** [logo.png] is refused for its type even if it were readable as text. *)
Lemma from_file_opens_last_witness :
  FilePart.from_file (with_open_read Sample.env (fun _ => Return "text")) "logo.png"
  = Raise (ValueError "Unsopported type: image/png").
Proof.
  rewrite (from_file_opens_last Sample.env "logo.png" (fun _ => Return "text")).
  - reflexivity.
  - intros (_ & m & Hm & Hp). vm_compute in Hm. inversion Hm; subst m. discriminate Hp.
Defined.

Lemma one_part_or_one_warning (env : Env) (f : string) :
  aborts env f = None ->
  length (file_part_of env f) + length (skip_warning env f) = 1.
Proof.
  unfold aborts, file_part_of, skip_warning.
  destruct (build_file env f) as [p|e]; [reflexivity|].
  destruct (handled f e); [reflexivity | discriminate].
Qed.

Lemma parts_and_warnings (env : Env) (fs : list string) :
  (forall f, In f fs -> aborts env f = None) ->
  length (flat_map (file_part_of env) fs) + length (flat_map (skip_warning env) fs)
  = length fs.
Proof.
  induction fs as [|f fs IH]; intros Hok; simpl; [reflexivity|].
  rewrite !length_app.
  pose proof (one_part_or_one_warning env f (Hok f (or_introl eq_refl))) as H1.
  specialize (IH (fun g Hg => Hok g (or_intror Hg))).
  rewrite <- IH, <- Nat.add_1_l, <- H1.
  rewrite !Nat.add_assoc.
  rewrite <- (Nat.add_assoc (length (file_part_of env f)) (length (skip_warning env f))).
  rewrite (Nat.add_comm (length (skip_warning env f))).
  now rewrite !Nat.add_assoc.
Qed.

(** X12: when the composition of a message completes, every file input
    is accounted for exactly once, by its part or by its warning: the
    number of file parts plus the number of warnings is the number of file
    inputs, and the text parts are as many as the text inputs. *)
Theorem every_file_input_is_accounted_for
        (env : Env) (text : str_or_list) (file : option str_or_list)
        (ws : list string) (ps : list Part) :
  compose_parts env text file = (ws, Return ps) ->
  length (filter is_file_part ps) + length ws = length (inputs_of file) /\
  length (filter is_text_part ps) = length (texts_of text).
Proof.
  intros H.
  assert (Hok : forall f, In f (inputs_of file) -> aborts env f = None).
  { rewrite compose_parts_eq in H. eapply attach_files_Return; eauto. }
  destruct (compose_parts_Return env text file ws ps H) as (-> & ->).
  assert (Ht : forall l, filter is_file_part (text_parts l) = []
                         /\ filter is_text_part (text_parts l) = text_parts l).
  { induction l as [|t l [IH1 IH2]]; simpl; [auto|]. now rewrite IH1, IH2. }
  assert (Hf : forall l : list FilePart.t,
             filter is_file_part (map PFile l) = map PFile l
             /\ filter is_text_part (map PFile l) = []).
  { induction l as [|t l [IH1 IH2]]; simpl; [auto|]. now rewrite IH1, IH2. }
  unfold file_parts. rewrite !filter_app.
  rewrite (proj1 (Ht _)), (proj2 (Ht _)), (proj1 (Hf _)), (proj2 (Hf _)).
  simpl. rewrite app_nil_r. unfold text_parts. rewrite !length_map.
  split; [now apply parts_and_warnings | reflexivity].
Qed.

(** One text, three local inputs of which two are refused. *)
Lemma every_file_input_is_accounted_for_witness :
  exists ws ps,
    compose_parts Sample.env (Str "hi")
                  (Some (Strs ["logo.png"; "notes.txt"; "gone.txt"]))
    = (ws, Return ps) /\
    length (filter is_file_part ps) + length ws = 3 /\
    length (filter is_text_part ps) = 1.
Proof.
  destruct (compose_parts Sample.env (Str "hi")
              (Some (Strs ["logo.png"; "notes.txt"; "gone.txt"])))
    as [ws [ps|e]] eqn:Hc; [|discriminate Hc].
  exists ws, ps. split; [reflexivity|].
  exact (every_file_input_is_accounted_for _ _ _ _ _ Hc).
Defined.

(* ------------------------------------------------------------------ *)
(** ** Further properties: the message on the wire and in the history *)

(** X13: the body posted by [send_message] is the JSON object with the
    seven keys [modelID], [providerID], [parts], [messageID], [mode],
    [system], [tools], in this order: model and provider are those of the
    client, the parts are the composed parts, the message identifier is
    empty, the mode is ["build"], the tools are empty, and [system] is the
    system message, or null -- not the empty string -- when none is
    given. *)
Theorem message_body_on_the_wire
        (env : Env) (w : World) (text : str_or_list) (file : option str_or_list)
        (system_message session_id : option string)
        (req : request) (w1 : World) (k : outcome response -> Run AssistantMessage.t) :
  send_message env text file system_message session_id w = Await req w1 k ->
  exists ws ps,
    compose_parts env text file = (ws, Return ps) /\
    method req = POST /\
    json_body req =
    Some (JObj [("modelID", JStr (model (self w)));
                ("providerID", JStr (model_provider (self w)));
                ("parts", JArr (map Part_asdict ps));
                ("messageID", JStr "");
                ("mode", JStr "build");
                ("system", match system_message with
                           | Some s => JStr s
                           | None => JNull
                           end);
                ("tools", JObj [])]).
Proof.
  intros H.
  destruct (truthy (resolved_id session_id w)) eqn:Hr.
  - destruct (compose_parts env text file) as [ws [ps|e]] eqn:Hc.
    + destruct (send_message_sent env text file system_message session_id w ws ps Hr Hc)
        as (k' & Hk & _).
      rewrite Hk in H. inversion H; subst.
      exists ws, ps. split; [reflexivity|]. split; [reflexivity|].
      destruct system_message; reflexivity.
    + rewrite (send_message_aborted env text file system_message session_id w ws e Hr Hc)
        in H.
      discriminate.
  - rewrite (send_message_unresolved env text file system_message session_id w Hr) in H.
    discriminate.
Qed.

(** The body of a plain text message of the sample client. *)
Lemma message_body_on_the_wire_witness :
  exists req w1 k,
    send_message Sample.env (Str "hi") None None None Sample.w1 = Await req w1 k /\
    json_body req =
    Some (JObj [("modelID", JStr "gpt-5"); ("providerID", JStr "openai");
                ("parts", JArr [JObj [("text", JStr "hi"); ("type", JStr "text")]]);
                ("messageID", JStr ""); ("mode", JStr "build");
                ("system", JNull); ("tools", JObj [])]).
Proof.
  destruct (send_message Sample.env (Str "hi") None None None Sample.w1)
    as [r w'|req w1 k] eqn:Hs; [discriminate Hs|].
  exists req, w1, k. split; [reflexivity|].
  destruct (message_body_on_the_wire _ _ _ _ _ _ _ _ _ Hs) as (ws & ps & Hc & _ & Hb).
  rewrite Hb. vm_compute in Hc. inversion Hc; subst. reflexivity.
Defined.

(** X14: a missing, empty-string or empty-list [file] argument is no file
    input at all: the message is composed of the text parts alone, without
    warning and without failure, and the file system and the MIME table are
    not consulted. *)
Theorem falsy_file_argument_is_ignored
        (env env' : Env) (text : str_or_list) (file : option str_or_list) :
  file = None \/ file = Some (Str "") \/ file = Some (Strs []) ->
  compose_parts env text file
  = ([], Return (map (fun t => PText (TextPart.from_string t)) (texts_of text))) /\
  compose_parts env' text file = compose_parts env text file.
Proof.
  intros H.
  assert (Hi : inputs_of file = [])
    by (destruct H as [->|[->| ->]]; reflexivity).
  assert (Hc : forall e : Env,
             compose_parts e text file = ([], Return (text_parts (texts_of text)))).
  { intros e. rewrite compose_parts_eq, Hi. reflexivity. }
  split; [apply Hc | now rewrite !Hc].
Qed.

(** An empty string as [file] on the sample file system. *)
Lemma falsy_file_argument_is_ignored_witness :
  compose_parts Sample.env (Strs ["a"; "b"]) (Some (Str ""))
  = ([], Return [PText (TextPart.from_string "a"); PText (TextPart.from_string "b")]).
Proof.
  exact (proj1 (falsy_file_argument_is_ignored
                  Sample.env Sample.env (Strs ["a"; "b"]) (Some (Str ""))
                  (or_intror (or_introl eq_refl)))).
Defined.

Lemma send_message_final_world
      (env : Env) (w : World) (srv : transport)
      (text : str_or_list) (file : option str_or_list)
      (system_message session_id : option string) :
  exists ws,
    let w' := world_of (run_with srv
                          (send_message env text file system_message session_id w)) in
    w' = mkWorld (self w) (warned w ++ ws) \/
    (exists um, w' = sent_world w ws um) \/
    (exists um am, w' = answered_world (sent_world w ws um) am).
Proof.
  destruct (truthy (resolved_id session_id w)) eqn:Hr.
  - destruct (compose_parts env text file) as [ws [ps|e]] eqn:Hc.
    + destruct (send_message_sent env text file system_message session_id w ws ps Hr Hc)
        as (k & -> & Hk).
      exists ws. simpl. rewrite Hk. unfold finish_send.
      assert (Hsent : forall (r : outcome AssistantMessage.t) reqs um,
                 world_of (r, sent_world w ws um, reqs)
                 = mkWorld (self w) (warned w ++ ws) \/
                 (exists um', world_of (r, sent_world w ws um, reqs)
                              = sent_world w ws um') \/
                 (exists um' am, world_of (r, sent_world w ws um, reqs)
                                 = answered_world (sent_world w ws um') am))
        by (intros r reqs um; right; left; exists um; reflexivity).
      destruct (srv _) as [res|e]; [|apply Hsent].
      destruct (is_success res); [|apply Hsent].
      destruct (body res) as [payload|]; [|apply Hsent].
      destruct (AssistantMessage.from_json payload) as [am|e]; [|apply Hsent].
      right. right. do 2 eexists. reflexivity.
    + rewrite (send_message_aborted env text file system_message session_id w ws e Hr Hc).
      exists ws. simpl. auto.
  - rewrite (send_message_unresolved env text file system_message session_id w Hr).
    exists []. simpl. left. rewrite app_nil_r. now destruct w.
Qed.

(** X15: [send_message] never changes the configuration or the current
    session of the client, and never removes or rewrites an entry of the
    history: whatever the server answers, the history after the call is
    the history before it followed by at most two entries, and the
    warnings are only added to. *)
Theorem send_message_only_appends
        (env : Env) (w : World) (srv : transport)
        (text : str_or_list) (file : option str_or_list)
        (system_message session_id : option string) :
  let w' := world_of (run_with srv
                        (send_message env text file system_message session_id w)) in
  same_config (self w) (self w') /\
  _current_session (self w') = _current_session (self w) /\
  (exists more, chat_history (self w') = chat_history (self w) ++ more /\
                length more <= 2) /\
  (exists ws, warned w' = warned w ++ ws).
Proof.
  destruct (send_message_final_world env w srv text file system_message session_id)
    as (ws & H).
  simpl in *. unfold same_config.
  destruct H as [->|[(um & ->)|(um & am & ->)]]; simpl; repeat split.
  - exists []. split; [now rewrite app_nil_r | auto].
  - now exists ws.
  - exists [User um]. split; [reflexivity | auto].
  - now exists ws.
  - exists [User um; Assistant am]. split; [now rewrite <- app_assoc | auto].
  - now exists ws.
Qed.

(* ------------------------------------------------------------------ *)
(** ** Further properties: decoding the answers *)

Lemma AssistantMessage_missing_field (kw : list (string * json)) (k : string) :
  In k AssistantMessage.fields ->
  kw_lookup k kw = None ->
  exists msg, AssistantMessage.from_json (JObj kw) = Raise (TypeError msg).
Proof.
  intros Hk Hn. unfold AssistantMessage.from_json.
  destruct (kw_known AssistantMessage.fields kw); simpl; [|eauto].
  simpl in Hk. destruct Hk as [<-|[<-|[<-|[]]]]; rewrite Hn.
  - eauto.
  - destruct (kw_lookup "info" kw); eauto.
  - destruct (kw_lookup "info" kw); [|eauto].
    destruct (kw_lookup "parts" kw) as [[]|]; eauto.
Qed.

(** X18: an answer that lacks one of the three fields [info], [parts],
    [bloked] of [AssistantMessage] is refused with a [TypeError] although
    the server accepted the message: the request has been made, the user
    message is in the history, and no answer is recorded after it. *)
Theorem incomplete_answer_is_refused
        (env : Env) (w : World) (srv : transport)
        (text : str_or_list) (file : option str_or_list)
        (system_message session_id : option string)
        (ws : list string) (ps : list Part)
        (res : response) (kw : list (string * json)) (k : string) :
  truthy (resolved_id session_id w) = true ->
  compose_parts env text file = (ws, Return ps) ->
  let um := UserMessage.make (model (self w)) (model_provider (self w)) ps
                             system_message in
  let req := message_request (the_str (resolved_id session_id w)) um in
  srv req = Return res ->
  is_success res = true ->
  body res = Some (JObj kw) ->
  In k ["info"; "parts"; "bloked"] ->
  kw_lookup k kw = None ->
  exists msg,
    run_with srv (send_message env text file system_message session_id w)
    = (Raise (TypeError msg), sent_world w ws um, [req]) /\
    chat_history (self (sent_world w ws um)) = chat_history (self w) ++ [User um].
Proof.
  intros Hr Hc um req Hs Hok Hb Hk Hn.
  destruct (send_message_sent env text file system_message session_id w ws ps Hr Hc)
    as (k' & Hsend & Hfin).
  destruct (AssistantMessage_missing_field kw k Hk Hn) as (msg & Hd).
  exists msg. split; [|reflexivity].
  rewrite Hsend. simpl. fold um. fold req. rewrite Hs, Hfin.
  unfold finish_send. rewrite Hok, Hb, Hd. reflexivity.
Qed.

(** A server whose answers carry [info] and [parts] only. *)
Lemma incomplete_answer_is_refused_witness :
  let srv : transport :=
    fun _ => Return (mkResponse 200 (Some (JObj [("info", JObj []); ("parts", JArr [])]))) in
  let um := UserMessage.make "gpt-5" "openai" [PText (TextPart.from_string "hi")] None in
  exists msg,
    run_with srv (send_message Sample.env (Str "hi") None None None Sample.w1)
    = (Raise (TypeError msg), sent_world Sample.w1 [] um,
       [message_request "ses_1" um]).
Proof.
  intros srv um.
  destruct (incomplete_answer_is_refused
              Sample.env Sample.w1 srv (Str "hi") None None None []
              [PText (TextPart.from_string "hi")]
              (mkResponse 200 (Some (JObj [("info", JObj []); ("parts", JArr [])])))
              [("info", JObj []); ("parts", JArr [])] "bloked"
              eq_refl eq_refl eq_refl eq_refl eq_refl
              (or_intror (or_intror (or_introl eq_refl))) eq_refl)
    as (msg & H & _).
  exists msg. exact H.
Defined.

(* ------------------------------------------------------------------ *)
(** ** Further properties: the file operations *)




(* ------------------------------------------------------------------ *)
(** ** Further properties: a current session without identifier *)

(** X20: a current session whose identifier is the empty string counts
    as no session: without an explicit identifier, [delete_session],
    [abort_session], [send_message] and [update_session] (given a title)
    raise the "no session identifier available" [ValueError] without any
    request, although a current session is set. *)
Theorem empty_current_id_is_no_session
        (env : Env) (w : World) (s : Session.t)
        (session_id title : option string)
        (text : str_or_list) (file : option str_or_list)
        (system_message : option string) :
  _current_session (self w) = Some s ->
  Session.id s = "" ->
  truthy session_id = false ->
  raises_offline (delete_session session_id w) (ValueError msg_no_session) w /\
  raises_offline (abort_session session_id w) (ValueError msg_no_session) w /\
  raises_offline (send_message env text file system_message session_id w)
                 (ValueError msg_no_session) w /\
  (truthy title = true ->
   raises_offline (update_session session_id title w) (ValueError msg_no_session) w).
Proof.
  intros Hc Hid Hs.
  assert (Hr : truthy (resolved_id session_id w) = false).
  { rewrite (resolved_id_current session_id w s Hs Hc), Hid. reflexivity. }
  repeat split.
  - rewrite delete_session_unresolved by exact Hr. auto with offline.
  - rewrite abort_session_unresolved by exact Hr. auto with offline.
  - rewrite send_message_unresolved by exact Hr. auto with offline.
  - intros Ht. rewrite update_session_unresolved by assumption.
    auto with offline.
Qed.

(** The sample client with a current session that has no identifier. *)
Lemma empty_current_id_is_no_session_witness :
  let s := Session.mk "" (JStr "test") (JStr "0.1") (JStr "proj") (JStr "/work")
                      (JObj []) (JStr "") in
  let w := mkWorld (Sample.with_session s) [] in
  _current_session (self w) = Some s /\
  raises_offline (delete_session None w) (ValueError msg_no_session) w.
Proof.
  intros s w. split; [reflexivity|].
  exact (proj1 (empty_current_id_is_no_session
                  Sample.env w s None None (Str "hi") None None
                  eq_refl eq_refl eq_refl)).
Defined.
